(** * SVG Maker MCP server: the validator, the tool handlers and their envelopes

    A shallow embedding of [src/index.ts], in the variant that exports
    [createServer] and walks the tags.  JavaScript strings are kept as
    [string], read as the UTF-8 bytes of the text, so that [Buffer.from] and
    a utf-8 [writeFile] are the identity on the bytes; the step from the
    code units of a JavaScript string to those bytes is modelled apart, in
    [Utf16], for the handlers whose answer depends on it.  The libraries the
    server delegates to (XML validator and parser, rasterizer, minifier,
    pretty printer, JSX generator, PDF engine, file system) are fields of a
    record of collaborators; every theorem quantifies over that record. *)

From Stdlib Require Import ZArith Ascii String List Lia DecimalString.
From Stdlib.Strings Require Byte.
From stdpp Require Import base option list strings gmap.

Set Warnings "-register-all".
Local Open Scope Z_scope.
Local Open Scope stdpp_scope.
Local Open Scope list_scope.

(** ** JavaScript values and failures *)

(** The value tree [XMLParser.parse] builds, and the JSON values a client
    supplies as tool arguments.  An object keeps its properties in
    enumeration order, which is what [Object.keys] and [for ... in] walk. *)
Inductive JsValue : Type :=
| JNull
| JBool (b : bool)
| JNum (n : Z)
| JStr (s : string)
| JArr (items : list JsValue)
| JObj (props : list (string * JsValue)).

(** [typeof v === "object"]: objects, arrays and [null]. *)
Definition typeof_object (v : JsValue) : bool :=
  match v with
  | JNull | JArr _ | JObj _ => true
  | JBool _ | JNum _ | JStr _ => false
  end.

(** A thrown value.  The handlers only ever read [e.message], which is
    [undefined] when the thrown value is not an [Error]. *)
Record JsError : Type := MkError { message : option string }.

Definition Error (msg : string) : JsError := MkError (Some msg).

(** [`${e.message}`] inside a template literal. *)
Definition message_text (e : JsError) : string :=
  match message e with
  | Some m => m
  | None => "undefined"
  end.

(** A call either returns or throws (an awaited promise: resolves or rejects). *)
Inductive outcome (A : Type) : Type :=
| Returned (a : A)
| Thrown (e : JsError).
Arguments Returned {A} a.
Arguments Thrown {A} e.

(** ** String helpers of the JavaScript runtime *)

Module Js.

Definition str_eqb (a b : string) : bool := bool_decide (a = b).

(** [s.startsWith(p)] *)
Fixpoint startsWith (p s : string) : bool :=
  match p, s with
  | EmptyString, _ => true
  | String a p', String b s' => bool_decide (a = b) && startsWith p' s'
  | String _ _, EmptyString => false
  end.

(** [s.endsWith(p)]: some suffix of [s] is [p]. *)
Fixpoint endsWith (p s : string) : bool :=
  str_eqb s p ||
  match s with
  | EmptyString => false
  | String _ s' => endsWith p s'
  end.

Definition lower_ascii (c : ascii) : ascii :=
  let n := nat_of_ascii c in
  if (Nat.leb 65 n && Nat.leb n 90)%bool then ascii_of_nat (n + 32) else c.

(** [s.toLowerCase()].  Bytes outside A-Z are left alone: no character
    outside ASCII lower-cases to one of the four characters of the
    extension the server tests for. *)
Fixpoint toLowerCase (s : string) : string :=
  match s with
  | EmptyString => EmptyString
  | String c s' => String (lower_ascii c) (toLowerCase s')
  end.

(** [xs.join(sep)] *)
Fixpoint join (sep : string) (xs : list string) : string :=
  match xs with
  | [] => EmptyString
  | [x] => x
  | x :: xs' => x +:+ sep +:+ join sep xs'
  end.

(** The property name of array index [i]. *)
Definition indexKey (i : nat) : string :=
  NilEmpty.string_of_uint (Nat.to_uint i).

(** A line terminator starts here: LF, CR, or U+2028 / U+2029 in UTF-8.
    The regular expression dot does not match across it. *)
Definition lineTerminatorAt (s : string) : bool :=
  match s with
  | String c rest =>
      if bool_decide (c = "010"%char) || bool_decide (c = "013"%char) then true
      else if bool_decide (c = "226"%char) then
        match rest with
        | String c1 (String c2 _) =>
            bool_decide (c1 = "128"%char) &&
            (bool_decide (c2 = "168"%char) || bool_decide (c2 = "169"%char))
        | _ => false
        end
      else false
  | EmptyString => false
  end.

(** The text left after the match of [/^.*:/]: the greedy [.*] runs to the
    end of the first line and backtracks to its last colon.  [acc] is the
    remainder after the last colon seen so far. *)
Fixpoint afterLastColon (s : string) (acc : option string) : option string :=
  if lineTerminatorAt s then acc
  else match s with
       | EmptyString => acc
       | String c rest =>
           if bool_decide (c = ":"%char) then afterLastColon rest (Some rest)
           else afterLastColon rest acc
       end.

(** [key.replace(/^.*:/, empty)]: the match is cut away. *)
Definition stripNamespace (key : string) : string :=
  match afterLastColon key None with
  | Some rest => rest
  | None => key
  end.

End Js.

(** ** The structural validator *)

(** What [XMLValidator.validate] returns: [true], or an object whose
    [err.msg] may be missing. *)
Inductive ValidatorResult : Type :=
| VTrue
| VFail (msg : option string).

(** [err?.msg || "Invalid XML"]: a missing or empty message is falsy. *)
Definition syntaxFault (msg : option string) : string :=
  match msg with
  | Some EmptyString | None => "Invalid XML"
  | Some m => m
  end.

Record Verdict : Type := MkVerdict {
  valid : bool;
  errors : list string;
  warnings : list string
}.

(** [xs.length === 0] *)
Definition length_is_0 {A} (xs : list A) : bool :=
  match xs with [] => true | _ :: _ => false end.


(** ** Base64, as [Buffer.prototype.toString("base64")] produces it

    The standard alphabet of RFC 4648 with [=] padding.  A [Buffer] is a
    list of bytes; [Buffer.from(text)] takes the UTF-8 bytes of the text. *)

Module Base64.

Definition Buffer_from (text : string) : list Byte.byte :=
  String.list_byte_of_string text.

Definition alphabet : list ascii :=
  list_ascii_of_string
    "ABCDEFGHIJKLMNOPQRSTUVWXYZabcdefghijklmnopqrstuvwxyz0123456789+/".

Definition pad : ascii := "="%char.

Definition byteZ (b : Byte.byte) : Z := Z.of_N (Byte.to_N b).

Definition zByte (z : Z) : Byte.byte :=
  match Byte.of_N (Z.to_N z) with
  | Some b => b
  | None => Byte.x00
  end.

(** The [i]-th 6-bit group of [n], counted from the low end. *)
Definition sextet (n i : Z) : Z := Z.land (Z.shiftr n (6 * i)) 63.

(** The [i]-th byte of [n], counted from the low end. *)
Definition octet (n i : Z) : Z := Z.land (Z.shiftr n (8 * i)) 255.

Definition digit (v : Z) : ascii := nth (Z.to_nat v) alphabet pad.

Fixpoint indexOf (c : ascii) (cs : list ascii) (i : Z) : option Z :=
  match cs with
  | [] => None
  | d :: cs' => if bool_decide (c = d) then Some i else indexOf c cs' (i + 1)
  end.

Definition value (c : ascii) : option Z := indexOf c alphabet 0.

Fixpoint encode (bs : list Byte.byte) : string :=
  match bs with
  | [] => EmptyString
  | [a] =>
      let n := Z.shiftl (byteZ a) 16 in
      String (digit (sextet n 3)) (String (digit (sextet n 2))
        (String pad (String pad EmptyString)))
  | [a; b] =>
      let n := Z.shiftl (byteZ a) 16 + Z.shiftl (byteZ b) 8 in
      String (digit (sextet n 3)) (String (digit (sextet n 2))
        (String (digit (sextet n 1)) (String pad EmptyString)))
  | a :: b :: c :: rest =>
      let n := Z.shiftl (byteZ a) 16 + Z.shiftl (byteZ b) 8 + byteZ c in
      String (digit (sextet n 3)) (String (digit (sextet n 2))
        (String (digit (sextet n 1)) (String (digit (sextet n 0))
          (encode rest))))
  end.

(** The 24-bit group spelled by four digits. *)
Definition group (v3 v2 v1 v0 : Z) : Z :=
  Z.shiftl v3 18 + Z.shiftl v2 12 + Z.shiftl v1 6 + v0.

(** Decoding, four characters at a time; padding is accepted only in the
    last group. *)
Fixpoint decode (s : string) : option (list Byte.byte) :=
  match s with
  | EmptyString => Some []
  | String c3 (String c2 (String c1 (String c0 rest))) =>
      if bool_decide (c0 = pad) then
        match rest with
        | EmptyString =>
            if bool_decide (c1 = pad) then
              v3 ← value c3; v2 ← value c2;
              let n := group v3 v2 0 0 in
              Some [zByte (octet n 2)]
            else
              v3 ← value c3; v2 ← value c2; v1 ← value c1;
              let n := group v3 v2 v1 0 in
              Some [zByte (octet n 2); zByte (octet n 1)]
        | String _ _ => None
        end
      else
        v3 ← value c3; v2 ← value c2; v1 ← value c1; v0 ← value c0;
        let n := group v3 v2 v1 v0 in
        tail ← decode rest;
        Some (zByte (octet n 2) :: zByte (octet n 1) :: zByte (octet n 0) :: tail)
  | _ => None
  end.

(** [text.slice(prefix.length)] when [text] starts with [prefix]. *)
Fixpoint stripPrefix (prefix text : string) : option string :=
  match prefix, text with
  | EmptyString, _ => Some text
  | String a p', String b t' =>
      if bool_decide (a = b) then stripPrefix p' t' else None
  | String _ _, EmptyString => None
  end.

End Base64.

(** ** POSIX paths, as the [path] module of the runtime computes them *)

Module Path.

Definition slash : ascii := "/"%char.

(** [path.split("/")]: the segments between separators, never empty. *)
Fixpoint segments (path : string) : list string :=
  match path with
  | EmptyString => [EmptyString]
  | String c rest =>
      if bool_decide (c = slash) then EmptyString :: segments rest
      else match segments rest with
           | seg :: segs => String c seg :: segs
           | [] => [String c EmptyString]
           end
  end.

(** One segment of [normalizeString].  The stack holds the segments kept
    so far, the last one first.  Empty and [.] segments are dropped; [..]
    removes the last kept segment, or is kept itself when nothing can be
    removed and the path may climb above its root. *)
Definition normStep (allowAboveRoot : bool) (stack : list string)
    (seg : string) : list string :=
  if Js.str_eqb seg EmptyString || Js.str_eqb seg "." then stack
  else if Js.str_eqb seg ".." then
    match stack with
    | top :: below =>
        if Js.str_eqb top ".." then
          (if allowAboveRoot then seg :: stack else stack)
        else below
    | [] => if allowAboveRoot then [seg] else []
    end
  else seg :: stack.

Definition normalizeString (path : string) (allowAboveRoot : bool) : string :=
  Js.join "/" (rev (fold_left (normStep allowAboveRoot) (segments path) [])).

Definition isAbsolute (path : string) : bool := Js.startsWith "/" path.

(** The loop of [path.resolve]: arguments are taken from the right until
    the path built so far is absolute; empty arguments are skipped. *)
Definition resolveStep (acc : string * bool) (path : string) : string * bool :=
  let '(resolvedPath, resolvedAbsolute) := acc in
  if resolvedAbsolute then acc
  else if Js.str_eqb path EmptyString then acc
  else (path +:+ "/" +:+ resolvedPath, isAbsolute path).

(** [path.resolve(...args)] in a process whose working directory is [cwd]. *)
Definition resolve (cwd : string) (args : list string) : string :=
  let '(resolvedPath, resolvedAbsolute) :=
    fold_left resolveStep (rev args ++ [cwd]) (EmptyString, false) in
  let normalized := normalizeString resolvedPath (negb resolvedAbsolute) in
  if resolvedAbsolute then "/" +:+ normalized
  else if Js.str_eqb normalized EmptyString then "." else normalized.

(** [path.normalize] *)
Definition normalize (path : string) : string :=
  if Js.str_eqb path EmptyString then "."
  else
    let absolute := isAbsolute path in
    let trailingSeparator := Js.endsWith "/" path in
    let p := normalizeString path (negb absolute) in
    if Js.str_eqb p EmptyString then
      (if absolute then "/" else if trailingSeparator then "./" else ".")
    else
      let p' := if trailingSeparator then p +:+ "/" else p in
      if absolute then "/" +:+ p' else p'.

(** [path.join(a, b)] *)
Definition join (a b : string) : string :=
  let parts := filter (fun p => p <> EmptyString) [a; b] in
  match parts with
  | [] => "."
  | _ => normalize (Js.join "/" parts)
  end.

Fixpoint dropWhile (f : ascii -> bool) (cs : list ascii) : list ascii :=
  match cs with
  | c :: cs' => if f c then dropWhile f cs' else cs
  | [] => []
  end.

(** [path.dirname]: scanning from the end (the first character is not
    looked at), skip trailing separators, then the last segment; what
    is left of the separator found is the directory. *)
Definition dirname (path : string) : string :=
  match path with
  | EmptyString => "."
  | String first tail =>
      let hasRoot := bool_decide (first = slash) in
      let isSlash := fun c : ascii => bool_decide (c = slash) in
      let scanned :=
        dropWhile (fun c => negb (isSlash c))
          (dropWhile isSlash (rev (list_ascii_of_string tail))) in
      match scanned with
      | [] => if hasRoot then "/" else "."
      | _ :: before =>
          match before with
          | [] => if hasRoot then "//" else String first EmptyString
          | _ :: _ => String first (string_of_list_ascii (rev before))
          end
      end
  end.

End Path.

(** [key] is a property whose value has type object, somewhere in [obj]
    and reached through values of type object only: an element that carries
    attributes or child elements, at any depth. *)
Inductive ObjectProperty (key : string) : JsValue -> Prop :=
| ObjectProperty_here props v :
    In (key, v) props -> typeof_object v = true ->
    ObjectProperty key (JObj props)
| ObjectProperty_in_object props k v :
    In (k, v) props -> ObjectProperty key v ->
    ObjectProperty key (JObj props)
| ObjectProperty_in_array items v :
    In v items -> ObjectProperty key v ->
    ObjectProperty key (JArr items).

(** ** Response envelopes *)

Inductive ContentItem : Type :=
| TextItem (text : string)
| ImageItem (data : string) (mimeType : string).

(** [isError] is left out of a success envelope; absent reads as false. *)
Record Response : Type := MkResponse {
  content : list ContentItem;
  isError : bool
}.

Definition textResponse (text : string) : Response :=
  {| content := [TextItem text]; isError := false |}.

Definition errorResponse (text : string) : Response :=
  {| content := [TextItem text]; isError := true |}.


(** ** The world the handlers act on *)

(** An entry of the [plugins] array handed to the minifier. *)
Inductive SvgoPlugin : Type :=
| PluginName (name : string)
| PluginSwitch (name : string) (active : bool).

(** The flavour flag handed to the JSX generator. *)
Inductive SvgrTarget : Type := TargetIcon | TargetNative.

(** The calls that leave the server, in the order they are made. *)
Inductive Event : Type :=
| EvRasterize (input : list Byte.byte) (resize : option (option Z * option Z))
| EvOptimize (svg : string) (plugins : list SvgoPlugin)
| EvConsoleWarn (text : string) (e : JsError)
| EvMkdir (dir : string)
| EvWriteFile (path : string) (data : string)
| EvFormat (svg : string)
| EvTransform (svg : string) (target : SvgrTarget) (componentName : string)
| EvUuid
| EvCreateWriteStream (path : string)
| EvSvgToPdf (svg : string)
| EvStreamEnd (path : string).

Record World : Type := MkWorld {
  files : gmap string string;
  calls : list Event
}.

Definition record (ev : Event) (w : World) : World :=
  {| files := files w; calls := calls w ++ [ev] |}.

Definition store (path data : string) (w : World) : World :=
  {| files := <[path := data]> (files w); calls := calls w |}.

(** What [get_svg_metadata] serializes. *)
Record Metadata : Type := MkMetadata {
  md_width : option JsValue;
  md_height : option JsValue;
  md_viewBox : option JsValue;
  md_title : option JsValue
}.

(** The libraries and the runtime the handlers call.  Each call either
    returns or throws.  The libraries compute from their arguments; what
    the file system answers depends on the files it holds. *)
Record Collaborators : Type := MkCollaborators {
  SVG_TAGS : gset string;
  XMLValidator_validate : string -> ValidatorResult;
  XMLParser_parse : string -> string -> outcome (list (string * JsValue));
  (** [sharp(input)], an optional [resize], then [png().toBuffer()] *)
  sharp_png : list Byte.byte -> option (option Z * option Z) ->
              outcome (list Byte.byte);
  (** [optimize(svg, {multipass: true, plugins}).data] *)
  svgo_optimize : string -> list SvgoPlugin -> outcome string;
  (** [format(svg, {indentation, collapseContent, lineSeparator})] *)
  xml_format : string -> outcome string;
  (** [transform(svg, {icon | native, plugins}, {componentName})] *)
  svgr_transform : string -> SvgrTarget -> string -> outcome string;
  uuidv4 : World -> string;
  (** [SVGtoPDF(doc, svg, 0, 0)]: the document bytes it draws *)
  SVGtoPDF : string -> outcome string;
  (** the write stream settles with [finish] or with [error] *)
  stream_finish : gmap string string -> string -> outcome unit;
  fs_mkdir : gmap string string -> string -> outcome unit;
  fs_writeFile : gmap string string -> string -> string -> outcome unit;
  JSON_stringify_verdict : Verdict -> string;
  JSON_stringify_metadata : Metadata -> string;
  process_cwd : string
}.

Definition isImage (item : ContentItem) : bool :=
  match item with
  | ImageItem _ _ => true
  | TextItem _ => false
  end.

(** The image items a client receives: those of the envelope, none when
    the handler threw. *)
Definition imageItems (result : outcome Response) : list ContentItem :=
  match result with
  | Returned r => List.filter isImage (content r)
  | Thrown _ => []
  end.

(** ** Computations that call out and may throw *)

Definition M (A : Type) : Type := World -> outcome A * World.

Definition ret {A} (a : A) : M A := fun w => (Returned a, w).

Definition throw {A} (e : JsError) : M A := fun w => (Thrown e, w).

Definition bind {A B} (m : M A) (k : A -> M B) : M B :=
  fun w =>
    match m w with
    | (Returned a, w') => k a w'
    | (Thrown e, w') => (Thrown e, w')
    end.

(** [try { body } catch (e) { handler }] *)
Definition tryCatch {A} (body : M A) (handler : JsError -> M A) : M A :=
  fun w =>
    match body w with
    | (Returned a, w') => (Returned a, w')
    | (Thrown e, w') => handler e w'
    end.

(** A call to a collaborator: it is recorded, then it returns or throws. *)
Definition call {A} (ev : Event) (run : World -> outcome A) : M A :=
  fun w => (run w, record ev w).

Declare Scope js_scope.
Delimit Scope js_scope with js.
Notation "'let*' x ':=' m 'in' k" := (bind m (fun x => k))
  (at level 10, x name, m at level 100, k at level 200) : js_scope.
Notation "m ';;;' k" := (bind m (fun _ => k))
  (at level 100, k at level 200, right associativity) : js_scope.

(** ** The server *)

Section Server.

Variable env : Collaborators.

Local Open Scope js_scope.

(** *** The structural validator *)

(** The body of the [if] inside [checkTags], for a property [key] whose
    value has type object. *)
Definition tagWarning (key : string) : list string :=
  let tagName := Js.stripNamespace key in
  if negb (Js.str_eqb tagName "svg")
     && negb (bool_decide (tagName ∈ SVG_TAGS env))
     && negb (Js.startsWith "@_" key)
     && negb (Js.str_eqb key "#text")
  then ["Non-standard SVG tag found: '" +:+ tagName +:+ "'"]
  else [].

(** [checkTags]: the warnings it pushes, in the order it pushes them.
    [for (const key in obj)] walks the properties of an object and the
    indices of an array; over anything else it finds no property of type
    object. *)
Fixpoint checkTags (obj : JsValue) : list string :=
  match obj with
  | JObj props =>
      (fix walk (ps : list (string * JsValue)) : list string :=
         match ps with
         | [] => []
         | (key, v) :: ps' =>
             (if typeof_object v then tagWarning key ++ checkTags v else [])
             ++ walk ps'
         end) props
  | JArr items =>
      (fix walk (i : nat) (vs : list JsValue) : list string :=
         match vs with
         | [] => []
         | v :: vs' =>
             (if typeof_object v
              then tagWarning (Js.indexKey i) ++ checkTags v else [])
             ++ walk (S i) vs'
         end) 0%nat items
  | JNull | JBool _ | JNum _ | JStr _ => []
  end.

(** [rootKeys.find(key => key !== "?xml")] *)
Definition findRootTag (rootKeys : list string) : option string :=
  List.find (fun key => negb (Js.str_eqb key "?xml")) rootKeys.

(** [!rootTag || stripped !== "svg"], with [stripped] the root tag after
    [replace(/^.*:/, empty)] *)
Definition rootRejected (rootTag : option string) : bool :=
  match rootTag with
  | None | Some EmptyString => true
  | Some tag => negb (Js.str_eqb (Js.stripNamespace tag) "svg")
  end.

(** [rootTag || "none"] *)
Definition rootShown (rootTag : option string) : string :=
  match rootTag with
  | None | Some EmptyString => "none"
  | Some tag => tag
  end.

Definition rootErrors (rootTag : option string) : list string :=
  if rootRejected rootTag
  then ["Root element must be 'svg', found '" +:+ rootShown rootTag +:+ "'"]
  else [].

Definition validateSvgContent (svgCode : string) : Verdict :=
  match XMLValidator_validate env svgCode with
  | VFail msg =>
      {| valid := false;
         errors := ["XML Syntax Error: " +:+ syntaxFault msg];
         warnings := [] |}
  | VTrue =>
      match XMLParser_parse env EmptyString svgCode with
      | Returned jsonObj =>
          let rootKeys := map fst jsonObj in
          let rootTag := findRootTag rootKeys in
          let errors := rootErrors rootTag in
          let warnings := checkTags (JObj jsonObj) in
          {| valid := length_is_0 errors; errors := errors; warnings := warnings |}
      | Thrown e =>
          let errors := ["Parsing error: " +:+ message_text e] in
          {| valid := length_is_0 errors; errors := errors; warnings := [] |}
      end
  end.

(** The same collaborators with another tag vocabulary. *)
Definition withTags (tags : gset string) : Collaborators :=
  {| SVG_TAGS := tags;
     XMLValidator_validate := XMLValidator_validate env;
     XMLParser_parse := XMLParser_parse env;
     sharp_png := sharp_png env;
     svgo_optimize := svgo_optimize env;
     xml_format := xml_format env;
     svgr_transform := svgr_transform env;
     uuidv4 := uuidv4 env;
     SVGtoPDF := SVGtoPDF env;
     stream_finish := stream_finish env;
     fs_mkdir := fs_mkdir env;
     fs_writeFile := fs_writeFile env;
     JSON_stringify_verdict := JSON_stringify_verdict env;
     JSON_stringify_metadata := JSON_stringify_metadata env;
     process_cwd := process_cwd env |}.

(** *** The tool handlers *)

(** A number given and not zero: what [width || height] tests. *)
Definition truthyNumber (n : option Z) : bool :=
  match n with
  | Some v => negb (v =? 0)
  | None => false
  end.

(** [if (width || height) pipeline.resize(width, height)]: the
    arguments of the resize, when there is one. *)
Definition resizeRequest (width height : option Z)
    : option (option Z * option Z) :=
  if truthyNumber width || truthyNumber height
  then Some (width, height) else None.

Definition render_svg (svg_code : string) (width height : option Z) : M Response :=
  let validation := validateSvgContent svg_code in
  if negb (valid validation) then
    throw (Error ("Invalid SVG: " +:+ Js.join "; " (errors validation)))
  else
    tryCatch
      (let input := Base64.Buffer_from svg_code in
       let resize := resizeRequest width height in
       let* pngBuffer :=
         call (EvRasterize input resize) (fun _ => sharp_png env input resize) in
       ret {| content := [ImageItem (Base64.encode pngBuffer) "image/png"];
              isError := false |})
      (fun e => throw (Error ("Error rendering SVG: " +:+ message_text e))).

Definition savePlugins : list SvgoPlugin :=
  [PluginName "preset-default"; PluginName "removeDimensions";
   PluginSwitch "removeViewBox" false].

Definition optimizePlugins : list SvgoPlugin :=
  [PluginName "preset-default"; PluginSwitch "removeViewBox" false].

Definition optimize (svg : string) (plugins : list SvgoPlugin) : M string :=
  call (EvOptimize svg plugins) (fun _ => svgo_optimize env svg plugins).

Definition console_warn (text : string) (e : JsError) : M unit :=
  call (EvConsoleWarn text e) (fun _ => Returned tt).

Definition mkdir_recursive (dir : string) : M unit :=
  call (EvMkdir dir) (fun w => fs_mkdir env (files w) dir).

(** [fs.writeFile(path, data, "utf-8")]: the file holds [data] once the
    call has returned. *)
Definition writeFile (path data : string) : M unit :=
  fun w =>
    match fs_writeFile env (files w) path data with
    | Returned _ => (Returned tt, store path data (record (EvWriteFile path data) w))
    | Thrown e => (Thrown e, record (EvWriteFile path data) w)
    end.

(** The name the file is saved under: [".svg"] is appended unless the
    name already ends in it, whatever the case of its letters. *)
Definition withSvgExtension (filename : string) : string :=
  if negb (Js.endsWith ".svg" (Js.toLowerCase filename))
  then filename +:+ ".svg" else filename.

(** [path.resolve(process.cwd(), filename)] *)
Definition resolveInCwd (filename : string) : string :=
  Path.resolve (process_cwd env) [process_cwd env; filename].

Definition save_svg (svg_code filename : string) (shouldOptimize : bool) : M Response :=
  tryCatch
    (let* content :=
       (if shouldOptimize then
          tryCatch
            (optimize svg_code savePlugins)
            (fun e =>
               console_warn "Optimization failed, saving original" e ;;;
               ret svg_code)
        else ret svg_code) in
     let filename := withSvgExtension filename in
     let finalPath := resolveInCwd filename in
     let dir := Path.dirname finalPath in
     mkdir_recursive dir ;;;
     writeFile finalPath content ;;;
     ret (textResponse finalPath))
    (fun e => ret (errorResponse ("Error saving SVG: " +:+ message_text e))).

Definition optimize_svg (svg_code : string) : M Response :=
  tryCatch
    (let* data := optimize svg_code optimizePlugins in
     ret (textResponse data))
    (fun e => ret (errorResponse ("Error optimizing SVG: " +:+ message_text e))).

Definition format_svg (svg_code : string) : M Response :=
  tryCatch
    (let* formatted :=
       call (EvFormat svg_code) (fun _ => xml_format env svg_code) in
     ret (textResponse formatted))
    (fun e => ret (errorResponse ("Error formatting SVG: " +:+ message_text e))).

Definition transform (svg : string) (target : SvgrTarget) (componentName : string)
    : M string :=
  call (EvTransform svg target componentName)
       (fun _ => svgr_transform env svg target componentName).

Definition svg_to_react (svg_code component_name : string) : M Response :=
  tryCatch
    (let* jsCode := transform svg_code TargetIcon component_name in
     ret (textResponse jsCode))
    (fun e => ret (errorResponse ("Error converting to React: " +:+ message_text e))).

Definition svg_to_react_native (svg_code component_name : string) : M Response :=
  tryCatch
    (let* jsCode := transform svg_code TargetNative component_name in
     ret (textResponse jsCode))
    (fun e =>
       ret (errorResponse ("Error converting to React Native: " +:+ message_text e))).

Definition svg_to_data_uri (svg_code : string) : M Response :=
  tryCatch
    (let encoded := Base64.encode (Base64.Buffer_from svg_code) in
     ret (textResponse ("data:image/svg+xml;base64," +:+ encoded)))
    (fun e =>
       ret (errorResponse ("Error converting to Data URI: " +:+ message_text e))).

Definition OUTPUT_DIR : string := Path.join (process_cwd env) "output".

(** [doc.end()] and the wait for the stream: on [finish] the file holds
    the document, on [error] the promise rejects. *)
Definition streamEnd (path data : string) : M unit :=
  fun w =>
    match stream_finish env (files w) path with
    | Returned _ => (Returned tt, store path data (record (EvStreamEnd path) w))
    | Thrown e => (Thrown e, record (EvStreamEnd path) w)
    end.

(** [path.join(OUTPUT_DIR, `${id}.pdf`)] *)
Definition pdfPath (id : string) : string :=
  Path.join OUTPUT_DIR (id +:+ ".pdf").

Definition svg_to_pdf (svg_code : string) : M Response :=
  tryCatch
    (let* id := call EvUuid (fun w => Returned (uuidv4 env w)) in
     let filepath := pdfPath id in
     call (EvCreateWriteStream filepath) (fun _ => Returned tt) ;;;
     let* document :=
       call (EvSvgToPdf svg_code) (fun _ => SVGtoPDF env svg_code) in
     streamEnd filepath document ;;;
     ret (textResponse (Path.resolve (process_cwd env) [filepath])))
    (fun e =>
       ret (errorResponse ("Error converting SVG to PDF: " +:+ message_text e))).

Definition validate_svg (svg_code : string) : M Response :=
  let result := validateSvgContent svg_code in
  ret (textResponse (JSON_stringify_verdict env result)).

(** [!v] is false *)
Definition truthy (v : option JsValue) : bool :=
  match v with
  | None | Some JNull => false
  | Some (JBool b) => b
  | Some (JNum n) => negb (n =? 0)
  | Some (JStr s) => negb (Js.str_eqb s EmptyString)
  | Some (JArr _) | Some (JObj _) => true
  end.

Fixpoint lookupProp (key : string) (props : list (string * JsValue)) : option JsValue :=
  match props with
  | [] => None
  | (k, v) :: props' => if Js.str_eqb k key then Some v else lookupProp key props'
  end.

(** [root[key]] for the four names the handler reads; only an object can
    carry them. *)
Definition getProp (root : option JsValue) (key : string) : option JsValue :=
  match root with
  | Some (JObj props) => lookupProp key props
  | _ => None
  end.

Definition get_svg_metadata (svg_code : string) : M Response :=
  tryCatch
    (let* jsonObj := (fun w => (XMLParser_parse env "@_" svg_code, w)) in
     let root := lookupProp "svg" jsonObj in
     let root :=
       if negb (truthy root) then
         let keys := List.filter (fun k => negb (Js.str_eqb k "?xml")) (map fst jsonObj) in
         match keys with
         | k0 :: _ => lookupProp k0 jsonObj
         | [] => root
         end
       else root in
     if negb (truthy root) then throw (Error "Could not find SVG root element")
     else
       let metadata :=
         {| md_width := getProp root "@_width";
            md_height := getProp root "@_height";
            md_viewBox := getProp root "@_viewBox";
            md_title := getProp root "title" |} in
       ret (textResponse (JSON_stringify_metadata env metadata)))
    (fun e => ret (errorResponse ("Error extracting metadata: " +:+ message_text e))).

End Server.

(** ** Registration and dispatch

    [server.registerTool(name, {inputSchema: z.object({...})}, handler)]:
    the names, the declared parameters and the handlers are those of the
    source; checking a request against a declaration is done by the
    libraries the server is built on. *)

Inductive ParamType : Type := TString | TNumber | TBoolean.

(** [z.t()], [z.t().optional()], [z.t().optional().default(d)] *)
Inductive Presence : Type :=
| Required
| Optional
| WithDefault (d : JsValue).

Record Param : Type := MkParam {
  pname : string;
  ptype : ParamType;
  presence : Presence
}.

Inductive Issue : Type :=
| MissingParameter (name : string)
| TypeMismatch (name : string).

Inductive DispatchError : Type :=
| UnknownOperation (name : string)
| InvalidArguments (issues : list Issue).

Definition hasType (t : ParamType) (v : JsValue) : bool :=
  match t, v with
  | TString, JStr _ | TNumber, JNum _ | TBoolean, JBool _ => true
  | _, _ => false
  end.

(** Modelled from the spec: the Request Validator, which lives in the
    schema and protocol libraries and not in the sources at hand.  For each
    declared parameter: required and absent is a missing parameter; present
    with the wrong semantic type is a type mismatch; optional and absent is
    replaced by the declared default, if any.  Keys that are not declared
    are ignored. *)
Definition checkParam (args : gmap string JsValue) (p : Param) : list Issue :=
  match args !! pname p with
  | None =>
      match presence p with
      | Required => [MissingParameter (pname p)]
      | Optional | WithDefault _ => []
      end
  | Some v => if hasType (ptype p) v then [] else [TypeMismatch (pname p)]
  end.

(** Modelled from the spec: the value a declared parameter is handed to the
    handler with (the supplied one, else the default, else nothing). *)
Definition fillParam (args validated : gmap string JsValue) (p : Param)
    : gmap string JsValue :=
  match args !! pname p with
  | Some v => <[pname p := v]> validated
  | None =>
      match presence p with
      | WithDefault d => <[pname p := d]> validated
      | Required | Optional => validated
      end
  end.

(** Modelled from the spec: request validation is total, has no effect and
    never runs a handler. *)
Definition validateRequest (schema : list Param) (args : gmap string JsValue)
    : list Issue + gmap string JsValue :=
  match flat_map (checkParam args) schema with
  | [] => inr (fold_left (fillParam args) schema ∅)
  | issues => inl issues
  end.

Definition argString (validated : gmap string JsValue) (key : string) : string :=
  match validated !! key with
  | Some (JStr s) => s
  | _ => EmptyString
  end.

Definition argNumber (validated : gmap string JsValue) (key : string) : option Z :=
  match validated !! key with
  | Some (JNum n) => Some n
  | _ => None
  end.

Definition argBool (validated : gmap string JsValue) (key : string) : bool :=
  match validated !! key with
  | Some (JBool b) => b
  | _ => false
  end.

Record Tool : Type := MkTool {
  tool_name : string;
  inputSchema : list Param;
  handler : gmap string JsValue -> M Response
}.

Section Registry.

Variable env : Collaborators.

Definition svg_code_param : Param := MkParam "svg_code" TString Required.

Definition component_name_param : Param :=
  MkParam "component_name" TString (WithDefault (JStr "SvgComponent")).

Definition render_svg_tool : Tool :=
  MkTool "render_svg"
    [svg_code_param; MkParam "width" TNumber Optional;
     MkParam "height" TNumber Optional]
    (fun a => render_svg env (argString a "svg_code")
                (argNumber a "width") (argNumber a "height")).

Definition save_svg_tool : Tool :=
  MkTool "save_svg"
    [svg_code_param; MkParam "filename" TString Required;
     MkParam "optimize" TBoolean (WithDefault (JBool true))]
    (fun a => save_svg env (argString a "svg_code") (argString a "filename")
                (argBool a "optimize")).

Definition optimize_svg_tool : Tool :=
  MkTool "optimize_svg" [svg_code_param]
    (fun a => optimize_svg env (argString a "svg_code")).

Definition format_svg_tool : Tool :=
  MkTool "format_svg" [svg_code_param]
    (fun a => format_svg env (argString a "svg_code")).

Definition svg_to_react_tool : Tool :=
  MkTool "svg_to_react" [svg_code_param; component_name_param]
    (fun a => svg_to_react env (argString a "svg_code")
                (argString a "component_name")).

Definition svg_to_react_native_tool : Tool :=
  MkTool "svg_to_react_native" [svg_code_param; component_name_param]
    (fun a => svg_to_react_native env (argString a "svg_code")
                (argString a "component_name")).

Definition svg_to_data_uri_tool : Tool :=
  MkTool "svg_to_data_uri" [svg_code_param]
    (fun a => svg_to_data_uri (argString a "svg_code")).

Definition svg_to_pdf_tool : Tool :=
  MkTool "svg_to_pdf" [svg_code_param]
    (fun a => svg_to_pdf env (argString a "svg_code")).

Definition validate_svg_tool : Tool :=
  MkTool "validate_svg" [svg_code_param]
    (fun a => validate_svg env (argString a "svg_code")).

Definition get_svg_metadata_tool : Tool :=
  MkTool "get_svg_metadata" [svg_code_param]
    (fun a => get_svg_metadata env (argString a "svg_code")).

(** The ten [registerTool] calls of [createServer], in their order. *)
Definition tools : list Tool :=
  [ render_svg_tool; save_svg_tool; optimize_svg_tool; format_svg_tool;
    svg_to_react_tool; svg_to_react_native_tool; svg_to_data_uri_tool;
    svg_to_pdf_tool; validate_svg_tool; get_svg_metadata_tool ].

Definition findTool (name : string) : option Tool :=
  List.find (fun t => Js.str_eqb (tool_name t) name) tools.

(** Modelled from the spec: [dispatch(name, args)] of the Tool Registry.
    An unknown name and a rejected request are hard failures raised
    before any handler runs; otherwise the handler runs on the validated
    arguments and what it returns or throws is passed on. *)
Definition dispatch (name : string) (args : gmap string JsValue)
    : World -> (DispatchError + outcome Response) * World :=
  fun w =>
    match findTool name with
    | None => (inl (UnknownOperation name), w)
    | Some t =>
        match validateRequest (inputSchema t) args with
        | inl issues => (inl (InvalidArguments issues), w)
        | inr validated =>
            let '(r, w') := handler t validated w in (inr r, w')
        end
    end.

End Registry.

(** ** Concrete collaborators, for running the handlers on examples *)

Module Examples.

Definition boom : JsError := Error "boom".

Definition emptyWorld : World := {| files := ∅; calls := [] |}.

(** A parser for the handful of documents the examples use, giving the
    trees the XML parser builds for them: an element with attributes or
    child elements becomes an object, an empty or text-only element
    becomes a string. *)
Definition parseExample (prefix src : string)
    : outcome (list (string * JsValue)) :=
  if Js.str_eqb src "<svg><customShape/></svg>" then
    Returned [("svg", JObj [("customShape", JStr EmptyString)])]
  else if Js.str_eqb src "<svg><customShape id='a'/></svg>" then
    Returned [("svg", JObj [("customShape", JObj [(prefix +:+ "id", JStr "a")])])]
  else if Js.str_eqb src "<notsvg/>" then
    Returned [("notsvg", JStr EmptyString)]
  else if Js.str_eqb src "<Svg/>" then
    Returned [("Svg", JStr EmptyString)]
  else if Js.str_eqb src "<ns:svg/>" then
    Returned [("ns:svg", JStr EmptyString)]
  else if Js.str_eqb src "<svg/>" then
    Returned [("svg", JStr EmptyString)]
  else Thrown boom.

Definition unclosedRect : string :=
  "Expected closing tag 'rect' instead of closing tag 'svg'.".

Definition validateExample (src : string) : ValidatorResult :=
  if Js.str_eqb src "<svg><rect></svg>" then VFail (Some unclosedRect)
  else VTrue.

(** Collaborators that all succeed, echoing their input. *)
Definition working : Collaborators :=
  {| SVG_TAGS := {[ "svg"; "g"; "rect"; "path"; "circle" ]};
     XMLValidator_validate := validateExample;
     XMLParser_parse := parseExample;
     sharp_png := fun input _ => Returned input;
     svgo_optimize := fun svg _ => Returned svg;
     xml_format := fun svg => Returned svg;
     svgr_transform := fun svg _ _ => Returned svg;
     uuidv4 := fun _ => "00000000-0000-4000-8000-000000000000";
     SVGtoPDF := fun svg => Returned svg;
     stream_finish := fun _ _ => Returned tt;
     fs_mkdir := fun _ _ => Returned tt;
     fs_writeFile := fun _ _ _ => Returned tt;
     JSON_stringify_verdict := fun v => Js.join "; " (errors v);
     JSON_stringify_metadata := fun _ => "{}";
     process_cwd := "/srv/app" |}.

(** The same, with every library call throwing. *)
Definition failing : Collaborators :=
  {| SVG_TAGS := SVG_TAGS working;
     XMLValidator_validate := validateExample;
     XMLParser_parse := fun prefix src =>
       if Js.str_eqb prefix "@_" then Thrown boom else parseExample prefix src;
     sharp_png := fun _ _ => Thrown boom;
     svgo_optimize := fun _ _ => Thrown boom;
     xml_format := fun _ => Thrown boom;
     svgr_transform := fun _ _ _ => Thrown boom;
     uuidv4 := uuidv4 working;
     SVGtoPDF := fun _ => Thrown boom;
     stream_finish := fun _ _ => Thrown boom;
     fs_mkdir := fun _ _ => Thrown boom;
     fs_writeFile := fun _ _ _ => Thrown boom;
     JSON_stringify_verdict := JSON_stringify_verdict working;
     JSON_stringify_metadata := JSON_stringify_metadata working;
     process_cwd := "/srv/app" |}.

(** The minifier throws, the file system works. *)
Definition minifierDown : Collaborators :=
  {| SVG_TAGS := SVG_TAGS working;
     XMLValidator_validate := validateExample;
     XMLParser_parse := parseExample;
     sharp_png := sharp_png working;
     svgo_optimize := fun _ _ => Thrown boom;
     xml_format := xml_format working;
     svgr_transform := svgr_transform working;
     uuidv4 := uuidv4 working;
     SVGtoPDF := SVGtoPDF working;
     stream_finish := stream_finish working;
     fs_mkdir := fs_mkdir working;
     fs_writeFile := fs_writeFile working;
     JSON_stringify_verdict := JSON_stringify_verdict working;
     JSON_stringify_metadata := JSON_stringify_metadata working;
     process_cwd := "/srv/app" |}.

End Examples.

(** ** Further definitions used to state properties of the walk *)

Module JsText.

(** A line terminator (LF, CR, U+2028 or U+2029) starts somewhere in
    the text. *)
Fixpoint hasLineBreak (s : string) : bool :=
  Js.lineTerminatorAt s ||
  match s with
  | EmptyString => false
  | String _ rest => hasLineBreak rest
  end.

(** The decimal digits of an array index. *)
Definition isDigit (c : ascii) : Prop :=
  In c (list_ascii_of_string "0123456789").

End JsText.

(** [target] is a value of type object that [checkTags], started on [obj],
    is called on. *)
Inductive Reaches : JsValue -> JsValue -> Prop :=
| Reaches_here v : Reaches v v
| Reaches_property props key v target :
    In (key, v) props -> typeof_object v = true -> Reaches v target ->
    Reaches (JObj props) target
| Reaches_item items v target :
    In v items -> typeof_object v = true -> Reaches v target ->
    Reaches (JArr items) target.

(** An envelope with exactly one content item, a text item when the
    envelope signals an error. *)
Definition singleItem (r : Response) : Prop :=
  exists item, content r = [item] /\ (isError r = true -> isImage item = false).

(** The message [checkTags] pushes for a tag. *)
Definition warningFor (tagName : string) : string :=
  "Non-standard SVG tag found: '" +:+ tagName +:+ "'".

Section Walk.

Variable env : Collaborators.

(** The loop of [checkTags] over the indices of an array, from index [i]
    on. *)
Fixpoint walkItems (i : nat) (vs : list JsValue) : list string :=
  match vs with
  | [] => []
  | v :: vs' =>
      (if typeof_object v
       then tagWarning env (Js.indexKey i) ++ checkTags env v else [])
      ++ walkItems (S i) vs'
  end.

End Walk.

(** ** The validator of the variant that exports [createServerInstance]

    The same checks, without the walk over the tags. *)

Module SseVariant.

Section Validator.

Variable env : Collaborators.

Definition validateSvgContent (svgCode : string) : Verdict :=
  match XMLValidator_validate env svgCode with
  | VFail msg =>
      {| valid := false;
         errors := ["XML Syntax Error: " +:+ syntaxFault msg];
         warnings := [] |}
  | VTrue =>
      match XMLParser_parse env EmptyString svgCode with
      | Returned jsonObj =>
          let rootKeys := map fst jsonObj in
          let rootTag := findRootTag rootKeys in
          let errors := rootErrors rootTag in
          {| valid := length_is_0 errors; errors := errors; warnings := [] |}
      | Thrown e =>
          let errors := ["Parsing error: " +:+ message_text e] in
          {| valid := length_is_0 errors; errors := errors; warnings := [] |}
      end
  end.

End Validator.

End SseVariant.

(** ** Collaborators built around one parsed document *)

Module Fixtures.

(** Every source is well-formed and parses to [tree]; the rest is as in
    [Examples.working]. *)
Definition parsing (tree : list (string * JsValue)) : Collaborators :=
  {| SVG_TAGS := SVG_TAGS Examples.working;
     XMLValidator_validate := fun _ => VTrue;
     XMLParser_parse := fun _ _ => Returned tree;
     sharp_png := sharp_png Examples.working;
     svgo_optimize := fun svg _ => Returned ("min:" +:+ svg);
     xml_format := xml_format Examples.working;
     svgr_transform := svgr_transform Examples.working;
     uuidv4 := uuidv4 Examples.working;
     SVGtoPDF := SVGtoPDF Examples.working;
     stream_finish := stream_finish Examples.working;
     fs_mkdir := fs_mkdir Examples.working;
     fs_writeFile := fs_writeFile Examples.working;
     JSON_stringify_verdict := JSON_stringify_verdict Examples.working;
     JSON_stringify_metadata := JSON_stringify_metadata Examples.working;
     process_cwd := "/srv/app" |}.

(** Two rect elements with attributes under an svg root: the parser
    gathers repeated elements in an array. *)
Definition twoRects : list (string * JsValue) :=
  [("svg", JObj [("rect", JArr [JObj [("x", JStr "1")];
                                JObj [("x", JStr "2")]])])].

(** A blob element with an attribute under a g element. *)
Definition nestedBlob : list (string * JsValue) :=
  [("svg", JObj [("g", JObj [("blob", JObj [("id", JStr "b")])])])].

(** An svg root that carries attributes and a title. *)
Definition sizedSvg : list (string * JsValue) :=
  [("?xml", JObj [("@_version", JStr "1.0")]);
   ("svg", JObj [("@_width", JNum 24); ("@_height", JNum 24);
                 ("title", JStr "Logo")])].

(** An svg root with an attribute, an empty element and a title. *)
Definition flatSvg : list (string * JsValue) :=
  [("svg", JObj [("width", JNum 24); ("customShape", JStr EmptyString);
                 ("title", JStr "Logo")])].

(** A document whose only element is not svg. *)
Definition lonelyGroup : list (string * JsValue) :=
  [("g", JObj [("@_width", JNum 10)])].

End Fixtures.

(** ** JavaScript text and its bytes

    A JavaScript string is a sequence of UTF-16 code units.  When text
    crosses into bytes ([Buffer.from(text)]) it is written as UTF-8: a
    high surrogate followed by a low one makes one code point of four
    bytes, and a surrogate that is not part of such a pair is replaced by
    U+FFFD. *)

Module Utf16.

Definition isCodeUnit (u : Z) : bool := (0 <=? u) && (u <? 65536).

Definition isHigh (u : Z) : bool := (55296 <=? u) && (u <=? 56319).

Definition isLow (u : Z) : bool := (56320 <=? u) && (u <=? 57343).

(** Every unit has 16 bits and every surrogate is half of a pair. *)
Fixpoint wellFormed (text : list Z) : bool :=
  match text with
  | [] => true
  | u :: rest =>
      isCodeUnit u &&
      (if isHigh u then
         match rest with
         | l :: rest' => isLow l && wellFormed rest'
         | [] => false
         end
       else negb (isLow u) && wellFormed rest)
  end.

(** U+FFFD in UTF-8. *)
Definition replacement : list Z := [239; 191; 189].

(** A code point below 65536 that is not a surrogate. *)
Definition encodeUnit (u : Z) : list Z :=
  if u <? 128 then [u]
  else if u <? 2048 then [192 + u / 64; 128 + u mod 64]
  else [224 + u / 4096; 128 + (u / 64) mod 64; 128 + u mod 64].

(** The code point a surrogate pair stands for. *)
Definition combine (high low : Z) : Z :=
  65536 + (high - 55296) * 1024 + (low - 56320).

Definition encodePair (high low : Z) : list Z :=
  let cp := combine high low in
  [240 + cp / 262144; 128 + (cp / 4096) mod 64;
   128 + (cp / 64) mod 64; 128 + cp mod 64].

(** The values of the bytes of the text in UTF-8. *)
Fixpoint utf8 (text : list Z) : list Z :=
  match text with
  | [] => []
  | u :: rest =>
      if isHigh u then
        match rest with
        | l :: rest' =>
            if isLow l then encodePair u l ++ utf8 rest'
            else replacement ++ utf8 rest
        | [] => replacement
        end
      else if isLow u then replacement ++ utf8 rest
      else encodeUnit u ++ utf8 rest
  end.

(** [Buffer.from(text)] *)
Definition Buffer_from (text : list Z) : list Byte.byte :=
  map Base64.zByte (utf8 text).

(** The payload of a continuation byte. *)
Definition continuation (b : Z) : option Z :=
  if (128 <=? b) && (b <? 192) then Some (b - 128) else None.

(** Reading UTF-8 back into code units; a code point of four bytes
    becomes a surrogate pair. *)
Fixpoint decode (bytes : list Z) : option (list Z) :=
  match bytes with
  | [] => Some []
  | b0 :: r0 =>
      if b0 <? 128 then cons b0 <$> decode r0
      else if b0 <? 192 then None
      else if b0 <? 224 then
        match r0 with
        | b1 :: r1 =>
            c1 ← continuation b1;
            cons ((b0 - 192) * 64 + c1) <$> decode r1
        | [] => None
        end
      else if b0 <? 240 then
        match r0 with
        | b1 :: b2 :: r2 =>
            c1 ← continuation b1; c2 ← continuation b2;
            cons ((b0 - 224) * 4096 + c1 * 64 + c2) <$> decode r2
        | _ => None
        end
      else
        match r0 with
        | b1 :: b2 :: b3 :: r3 =>
            c1 ← continuation b1; c2 ← continuation b2; c3 ← continuation b3;
            let v := (b0 - 240) * 262144 + c1 * 4096 + c2 * 64 + c3 - 65536 in
            (fun tail => (55296 + v / 1024) :: (56320 + v mod 1024) :: tail)
              <$> decode r3
        | _ => None
        end
  end.

(** [buffer.toString("utf-8")] on bytes that are UTF-8. *)
Definition toString (bytes : list Byte.byte) : option (list Z) :=
  decode (map Base64.byteZ bytes).

(** [text.toWellFormed()]: every unpaired surrogate replaced by
    U+FFFD. *)
Fixpoint toWellFormed (text : list Z) : list Z :=
  match text with
  | [] => []
  | u :: rest =>
      if isHigh u then
        match rest with
        | l :: rest' =>
            if isLow l then u :: l :: toWellFormed rest'
            else 65533 :: toWellFormed rest
        | [] => [65533]
        end
      else if isLow u then 65533 :: toWellFormed rest
      else u :: toWellFormed rest
  end.

Definition isByte (z : Z) : Prop := 0 <= z < 256.

(** A JavaScript string holds 16-bit units only. *)
Definition codeUnits (text : list Z) : Prop :=
  Forall (fun u => isCodeUnit u = true) text.

(** The code units of a text of ASCII characters. *)
Definition ofAscii (s : string) : list Z :=
  map (fun c => Z.of_N (N_of_ascii c)) (list_ascii_of_string s).

End Utf16.

(** ** svg_to_data_uri on the text a client sends *)

Module OnText.

(** The handler of [svg_to_data_uri], with [svg_code] the JavaScript
    string it receives. *)
Definition svg_to_data_uri (svg_code : list Z) : M Response :=
  tryCatch
    (let encoded := Base64.encode (Utf16.Buffer_from svg_code) in
     ret (textResponse ("data:image/svg+xml;base64," +:+ encoded)))
    (fun e =>
       ret (errorResponse ("Error converting to Data URI: " +:+ message_text e))).

End OnText.

(** * Facts about the runtime helpers *)

Module Base64Facts.
Import Base64.

Lemma byteZ_range (b : Byte.byte) : 0 <= byteZ b < 256.
Proof.
  unfold byteZ. pose proof (Byte.to_N_bounded b). lia.
Qed.

Lemma zByte_byteZ (b : Byte.byte) : zByte (byteZ b) = b.
Proof.
  unfold zByte, byteZ. rewrite N2Z.id, Byte.of_to_N. reflexivity.
Qed.

Lemma sextet_spec (n i : Z) : 0 <= i -> sextet n i = (n / 2 ^ (6 * i)) mod 64.
Proof.
  intros Hi. unfold sextet.
  change 63 with (Z.ones 6).
  rewrite Z.land_ones by lia. rewrite Z.shiftr_div_pow2 by lia. reflexivity.
Qed.

Lemma octet_spec (n i : Z) : 0 <= i -> octet n i = (n / 2 ^ (8 * i)) mod 256.
Proof.
  intros Hi. unfold octet.
  change 255 with (Z.ones 8).
  rewrite Z.land_ones by lia. rewrite Z.shiftr_div_pow2 by lia. reflexivity.
Qed.

Lemma sextet_range (n i : Z) : 0 <= i -> 0 <= sextet n i < 64.
Proof.
  intros Hi. rewrite sextet_spec by assumption. apply Z.mod_pos_bound. lia.
Qed.

(** Every digit of the alphabet decodes to the value it stands for. *)
Lemma value_digit (v : Z) : 0 <= v < 64 -> value (digit v) = Some v.
Proof.
  intros Hv.
  assert (Hn : (Z.to_nat v < 64)%nat) by lia.
  rewrite <- (Z2Nat.id v) at 2 by lia.
  unfold digit. generalize dependent (Z.to_nat v). clear v Hv.
  intros n Hn.
  do 64 (destruct n as [|n]; [reflexivity|]). lia.
Qed.

Lemma digit_not_pad (v : Z) : 0 <= v < 64 -> digit v <> pad.
Proof.
  intros Hv Heq. pose proof (value_digit v Hv) as H.
  rewrite Heq in H. discriminate H.
Qed.

Ltac to_div_mod :=
  rewrite ?sextet_spec, ?octet_spec by lia;
  unfold group; rewrite ?Z.shiftl_mul_pow2 by lia;
  change (2 ^ (6 * 3)) with 262144; change (2 ^ (6 * 2)) with 4096;
  change (2 ^ (6 * 1)) with 64; change (2 ^ (6 * 0)) with 1;
  change (2 ^ (8 * 2)) with 65536; change (2 ^ (8 * 1)) with 256;
  change (2 ^ (8 * 0)) with 1;
  change (2 ^ 18) with 262144; change (2 ^ 12) with 4096;
  change (2 ^ 16) with 65536; change (2 ^ 8) with 256;
  change (2 ^ 6) with 64.

(** Cutting a 24-bit group into four sextets and gluing them again. *)
Lemma group_sextets (n : Z) :
  0 <= n < 16777216 ->
  group (sextet n 3) (sextet n 2) (sextet n 1) (sextet n 0) = n.
Proof.
  intros Hn. to_div_mod. Z.div_mod_to_equations. lia.
Qed.

Lemma group_sextets_2 (n : Z) :
  0 <= n < 16777216 -> n mod 64 = 0 ->
  group (sextet n 3) (sextet n 2) (sextet n 1) 0 = n.
Proof.
  intros Hn H0. to_div_mod. Z.div_mod_to_equations. lia.
Qed.

Lemma group_sextets_1 (n : Z) :
  0 <= n < 16777216 -> n mod 4096 = 0 ->
  group (sextet n 3) (sextet n 2) 0 0 = n.
Proof.
  intros Hn H0. to_div_mod. Z.div_mod_to_equations. lia.
Qed.

Lemma octets_of_bytes (a b c : Z) :
  0 <= a < 256 -> 0 <= b < 256 -> 0 <= c < 256 ->
  let n := Z.shiftl a 16 + Z.shiftl b 8 + c in
  0 <= n < 16777216 /\ octet n 2 = a /\ octet n 1 = b /\ octet n 0 = c.
Proof.
  intros Ha Hb Hc n. subst n. to_div_mod.
  repeat split; try lia; Z.div_mod_to_equations; lia.
Qed.

Lemma decode_digits (v3 v2 v1 v0 : Z) (rest : string) :
  0 <= v3 < 64 -> 0 <= v2 < 64 -> 0 <= v1 < 64 -> 0 <= v0 < 64 ->
  decode (String (digit v3) (String (digit v2)
            (String (digit v1) (String (digit v0) rest)))) =
  tail ← decode rest;
  Some (zByte (octet (group v3 v2 v1 v0) 2)
        :: zByte (octet (group v3 v2 v1 v0) 1)
        :: zByte (octet (group v3 v2 v1 v0) 0) :: tail).
Proof.
  intros H3 H2 H1 H0. cbn [decode].
  rewrite bool_decide_eq_false_2 by (apply digit_not_pad; assumption).
  rewrite !value_digit by assumption. reflexivity.
Qed.

(** Induction three bytes at a time, the way the encoder consumes them. *)
Lemma triples_ind (P : list Byte.byte -> Prop) :
  P [] -> (forall a, P [a]) -> (forall a b, P [a; b]) ->
  (forall a b c rest, P rest -> P (a :: b :: c :: rest)) ->
  forall bs, P bs.
Proof.
  intros H0 H1 H2 H3.
  fix IH 1. intros [|a [|b [|c rest]]].
  - exact H0.
  - exact (H1 a).
  - exact (H2 a b).
  - exact (H3 a b c rest (IH rest)).
Qed.

(** Decoding what the encoder wrote gives the bytes back. *)
Lemma decode_encode (bs : list Byte.byte) : decode (encode bs) = Some bs.
Proof.
  induction bs as [|a|a b|a b c rest IH] using triples_ind.
  - reflexivity.
  - pose proof (byteZ_range a) as Ha.
    destruct (octets_of_bytes (byteZ a) 0 0 Ha) as (Hn & E2 & _); [lia..|].
    cbn zeta in Hn, E2. rewrite !Z.add_0_r in Hn, E2.
    cbn [encode decode]. set (n := Z.shiftl (byteZ a) 16) in *.
    rewrite !bool_decide_eq_true_2 by reflexivity.
    rewrite !value_digit by (apply sextet_range; lia). cbn.
    assert (Hm : n mod 4096 = 0).
    { subst n. rewrite Z.shiftl_mul_pow2 by lia.
      change (2 ^ 16) with (16 * 4096). rewrite Z.mul_assoc.
      apply Z.mod_mul. lia. }
    rewrite group_sextets_1 by assumption.
    rewrite E2, zByte_byteZ. reflexivity.
  - pose proof (byteZ_range a) as Ha. pose proof (byteZ_range b) as Hb.
    destruct (octets_of_bytes (byteZ a) (byteZ b) 0 Ha Hb) as (Hn & E2 & E1 & _);
      [lia|].
    cbn zeta in Hn, E2, E1. rewrite !Z.add_0_r in Hn, E2, E1.
    cbn [encode decode].
    set (n := Z.shiftl (byteZ a) 16 + Z.shiftl (byteZ b) 8) in *.
    rewrite bool_decide_eq_true_2 by reflexivity.
    rewrite bool_decide_eq_false_2 by (apply digit_not_pad, sextet_range; lia).
    rewrite !value_digit by (apply sextet_range; lia). cbn.
    assert (Hm : n mod 64 = 0).
    { subst n. rewrite !Z.shiftl_mul_pow2 by lia.
      change (2 ^ 16) with (1024 * 64). change (2 ^ 8) with (4 * 64).
      rewrite !Z.mul_assoc, <- Z.mul_add_distr_r. apply Z.mod_mul. lia. }
    rewrite group_sextets_2 by assumption.
    rewrite E2, E1, !zByte_byteZ. reflexivity.
  - pose proof (byteZ_range a) as Ha. pose proof (byteZ_range b) as Hb.
    pose proof (byteZ_range c) as Hc.
    destruct (octets_of_bytes _ _ _ Ha Hb Hc) as (Hn & E2 & E1 & E0).
    cbn zeta in Hn, E2, E1, E0.
    cbn [encode].
    set (n := Z.shiftl (byteZ a) 16 + Z.shiftl (byteZ b) 8 + byteZ c) in *.
    rewrite decode_digits by (apply sextet_range; lia).
    rewrite IH. cbn.
    rewrite group_sextets by assumption.
    rewrite E2, E1, E0, !zByte_byteZ. reflexivity.
Qed.

Lemma stripPrefix_app (p t : string) : stripPrefix p (p +:+ t) = Some t.
Proof.
  induction p as [|c p IH]; simpl.
  - destruct t; reflexivity.
  - rewrite bool_decide_eq_true_2 by reflexivity. exact IH.
Qed.

End Base64Facts.

Module PathFacts.
Import Path.

Lemma append_assoc (a b c : string) : (a +:+ b) +:+ c = a +:+ b +:+ c.
Proof.
  induction a as [|x a IH]; [reflexivity|].
  change (String x ((a +:+ b) +:+ c) = String x (a +:+ b +:+ c)).
  rewrite IH. reflexivity.
Qed.

Lemma append_empty_inv (a b : string) : a +:+ b = EmptyString -> b = EmptyString.
Proof. destruct a; [intros H; exact H|discriminate]. Qed.

Lemma segments_nonempty (p : string) : segments p <> [].
Proof.
  destruct p as [|c p]; cbn [segments]; [discriminate|].
  destruct (bool_decide (c = slash)); [discriminate|].
  destruct (segments p); discriminate.
Qed.

(** Splitting distributes over a separator. *)
Lemma segments_app_slash (a b : string) :
  segments (a +:+ String slash b) = segments a ++ segments b.
Proof.
  induction a as [|c a IH].
  - change (EmptyString +:+ String slash b) with (String slash b).
    reflexivity.
  - change (String c a +:+ String slash b) with (String c (a +:+ String slash b)).
    cbn [segments]. rewrite IH.
    destruct (bool_decide (c = slash)); [reflexivity|].
    pose proof (segments_nonempty a) as Hne.
    destruct (segments a); [congruence|reflexivity].
Qed.

Lemma join_snoc (sep : string) (l : list string) (x : string) :
  exists p, Js.join sep (l ++ [x]) = p +:+ x.
Proof.
  induction l as [|y l [p IH]].
  - exists EmptyString. reflexivity.
  - destruct l as [|z l].
    + exists (y +:+ sep). rewrite append_assoc. reflexivity.
    + exists (y +:+ sep +:+ p).
      change (Js.join sep ((y :: z :: l) ++ [x]))
        with (y +:+ sep +:+ Js.join sep ((z :: l) ++ [x])).
      rewrite IH, !append_assoc. reflexivity.
Qed.

Lemma endsWith_app (p x : string) : Js.endsWith x (p +:+ x) = true.
Proof.
  induction p as [|c p IH].
  - change (EmptyString +:+ x) with x.
    destruct x; cbn [Js.endsWith]; unfold Js.str_eqb;
      rewrite bool_decide_eq_true_2 by reflexivity; reflexivity.
  - change (String c p +:+ x) with (String c (p +:+ x)).
    cbn [Js.endsWith]. rewrite IH. apply orb_true_r.
Qed.

Section PlainName.

(** A file name of one segment that is neither empty nor a dot entry. *)
Variable f : string.
Hypothesis f_one_segment : segments f = [f].
Hypothesis f_not_empty : f <> EmptyString.
Hypothesis f_not_dot : f <> ".".
Hypothesis f_not_dotdot : f <> "..".

Lemma plain_not_absolute : isAbsolute f = false.
Proof.
  unfold isAbsolute. destruct f as [|c f'] eqn:Hf; [reflexivity|].
  cbn [Js.startsWith].
  destruct (bool_decide_reflect ("/"%char = c)) as [Hc|Hc]; [|reflexivity].
  exfalso. subst c. cbn [segments] in f_one_segment.
  rewrite bool_decide_eq_true_2 in f_one_segment by reflexivity.
  discriminate f_one_segment.
Qed.

Lemma normStep_plain (allow : bool) (stack : list string) :
  normStep allow stack f = f :: stack.
Proof.
  unfold normStep, Js.str_eqb.
  rewrite !bool_decide_eq_false_2 by assumption. reflexivity.
Qed.

(** Normalizing a path that ends in the plain name and a separator
    keeps the name as the last segment. *)
Lemma normalizeString_plain_last (path : string) (prefix : list string)
    (allow : bool) :
  segments path = prefix ++ [f; EmptyString] ->
  exists p, normalizeString path allow = p +:+ f.
Proof.
  intros Hseg. unfold normalizeString. rewrite Hseg, fold_left_app.
  cbn [fold_left]. rewrite normStep_plain.
  change (normStep allow (f :: fold_left (normStep allow) prefix []) EmptyString)
    with (f :: fold_left (normStep allow) prefix []).
  cbn [rev]. apply join_snoc.
Qed.

(** What the loop of resolve has built from [cwd] and the name. *)
Lemma resolved_shape (cwd : string) :
  exists path prefix,
    fold_left resolveStep (rev [cwd; f] ++ [cwd]) (EmptyString, false)
      = (path, isAbsolute cwd)
    /\ segments path = prefix ++ [f; EmptyString].
Proof.
  change (fold_left resolveStep (rev [cwd; f] ++ [cwd]) (EmptyString, false))
    with (resolveStep (resolveStep (resolveStep (EmptyString, false) f) cwd) cwd).
  assert (H1 : resolveStep (EmptyString, false) f
               = (f +:+ String slash EmptyString, false)).
  { unfold resolveStep, Js.str_eqb.
    rewrite bool_decide_eq_false_2 by assumption.
    rewrite plain_not_absolute. reflexivity. }
  assert (Hlast : segments (f +:+ String slash EmptyString) = [f; EmptyString]).
  { rewrite segments_app_slash, f_one_segment. reflexivity. }
  rewrite H1. unfold resolveStep, Js.str_eqb.
  destruct (bool_decide_reflect (cwd = EmptyString)) as [->|Hcwd].
  - exists (f +:+ String slash EmptyString), []. split; [reflexivity|exact Hlast].
  - destruct (isAbsolute cwd) eqn:Habs.
    + exists (cwd +:+ String slash (f +:+ String slash EmptyString)), (segments cwd).
      split; [reflexivity|]. rewrite segments_app_slash, Hlast. reflexivity.
    + exists (cwd +:+ String slash
                (cwd +:+ String slash (f +:+ String slash EmptyString))),
             (segments cwd ++ segments cwd).
      split; [reflexivity|].
      rewrite !segments_app_slash, f_one_segment, <- app_assoc. reflexivity.
Qed.

(** Resolving a plain name against the working directory gives a path
    that ends in that name, and an absolute one when the working
    directory is absolute. *)
Lemma resolve_plain (cwd : string) :
  (exists p, resolve cwd [cwd; f] = p +:+ f)
  /\ (isAbsolute cwd = true -> isAbsolute (resolve cwd [cwd; f]) = true).
Proof.
  unfold resolve.
  destruct (resolved_shape cwd) as (path & prefix & -> & Hseg).
  destruct (normalizeString_plain_last path prefix (negb (isAbsolute cwd)) Hseg)
    as [p Hp].
  cbv zeta. rewrite Hp.
  destruct (isAbsolute cwd).
  - split; [|reflexivity]. exists ("/" +:+ p). rewrite append_assoc. reflexivity.
  - split; [|discriminate]. unfold Js.str_eqb.
    rewrite bool_decide_eq_false_2; [exists p; reflexivity|].
    intros Hnil. apply f_not_empty. exact (append_empty_inv p f Hnil).
Qed.

End PlainName.

Lemma resolve_icon_svg (cwd : string) :
  Js.endsWith "icon.svg" (resolve cwd [cwd; "icon.svg"]) = true
  /\ (isAbsolute cwd = true ->
      isAbsolute (resolve cwd [cwd; "icon.svg"]) = true).
Proof.
  destruct (resolve_plain "icon.svg") with (cwd := cwd) as [[p Hp] Habs];
    try reflexivity; try discriminate.
  split; [|exact Habs]. rewrite Hp. apply endsWith_app.
Qed.

End PathFacts.

(** * The structural validator *)

Section ValidatorFacts.

Variable env : Collaborators.

Lemma length_is_0_nil {A} (xs : list A) : length_is_0 xs = true <-> xs = [].
Proof. destruct xs; simpl; split; congruence. Qed.

Lemma findRootTag_skips_declaration (keys : list string) :
  findRootTag ("?xml" :: keys) = findRootTag keys.
Proof. reflexivity. Qed.

Lemma findRootTag_first (key : string) (keys : list string) :
  key <> "?xml" -> findRootTag (key :: keys) = Some key.
Proof.
  intros Hne. unfold findRootTag. simpl.
  unfold Js.str_eqb. rewrite bool_decide_eq_false_2 by assumption. reflexivity.
Qed.

(** The walk over the properties of an object reaches each of them. *)
Lemma checkTags_object_property (props : list (string * JsValue)) key v :
  In (key, v) props -> typeof_object v = true ->
  incl (tagWarning env key ++ checkTags env v) (checkTags env (JObj props)).
Proof.
  intros Hin Hobj. induction props as [|[k x] props IH]; [destruct Hin|].
  change (checkTags env (JObj ((k, x) :: props)))
    with ((if typeof_object x then tagWarning env k ++ checkTags env x else [])
          ++ checkTags env (JObj props)).
  destruct Hin as [Heq|Hin].
  - inversion Heq; subst. rewrite Hobj. apply incl_appl, incl_refl.
  - apply incl_appr, IH, Hin.
Qed.

(** The walk over the items of an array reaches each of them. *)
Lemma checkTags_array_item (items : list JsValue) v :
  In v items -> incl (checkTags env v) (checkTags env (JArr items)).
Proof.
  intros Hin.
  assert (Hwalk : forall i,
    incl (checkTags env v)
      ((fix walk (i : nat) (vs : list JsValue) : list string :=
          match vs with
          | [] => []
          | v :: vs' =>
              (if typeof_object v
               then tagWarning env (Js.indexKey i) ++ checkTags env v else [])
              ++ walk (S i) vs'
          end) i items)).
  { induction items as [|x items IH]; [destruct Hin|]. intros i.
    destruct Hin as [->|Hin].
    - destruct v; simpl; try (intros ? []);
        apply incl_appl, incl_appr, incl_refl.
    - apply incl_appr, IH, Hin. }
  exact (Hwalk 0%nat).
Qed.

(** Every element that the parser hands over as an object is checked
    against the vocabulary, however deep it sits. *)
Lemma checkTags_visits_objects (key : string) (obj : JsValue) :
  ObjectProperty key obj -> incl (tagWarning env key) (checkTags env obj).
Proof.
  induction 1 as [props v Hin Hobj|props k v Hin Hsub IH|items v Hin Hsub IH].
  - eapply incl_tran; [|apply (checkTags_object_property props key v Hin Hobj)].
    apply incl_appl, incl_refl.
  - assert (Hobj : typeof_object v = true) by (destruct Hsub; reflexivity).
    eapply incl_tran; [|apply (checkTags_object_property props k v Hin Hobj)].
    apply incl_appr, IH.
  - eapply incl_tran; [exact IH|]. apply checkTags_array_item, Hin.
Qed.

(** C1 (evaluation at the failing input).  An element without attributes
    and without child elements reaches [checkTags] as a string or a number;
    its type is not object, so the vocabulary is never consulted for it:
    a document whose svg root holds only such an element, whatever its
    tag, validates with no warning at all. *)
Theorem leaf_element_gets_no_warning (svgCode tag : string) (leaf : JsValue) :
  XMLValidator_validate env svgCode = VTrue ->
  XMLParser_parse env EmptyString svgCode = Returned [("svg", JObj [(tag, leaf)])] ->
  typeof_object leaf = false ->
  validateSvgContent env svgCode =
    {| valid := true; errors := []; warnings := [] |}.
Proof.
  intros Hv Hp Hleaf. unfold validateSvgContent. rewrite Hv, Hp.
  simpl. rewrite Hleaf. reflexivity.
Qed.

(** C2.  When the well-formedness check fails, the verdict is invalid,
    carries the one syntax error and no warning; the parser and the
    vocabulary play no part in it. *)
Theorem malformed_xml_fails_fast (svgCode : string) (msg : option string) :
  XMLValidator_validate env svgCode = VFail msg ->
  validateSvgContent env svgCode =
    {| valid := false;
       errors := ["XML Syntax Error: " +:+ syntaxFault msg];
       warnings := [] |}
  /\ length (errors (validateSvgContent env svgCode)) = 1%nat
  /\ forall env' : Collaborators,
       XMLValidator_validate env' svgCode = VFail msg ->
       validateSvgContent env' svgCode = validateSvgContent env svgCode.
Proof.
  intros Hv. unfold validateSvgContent. rewrite Hv. repeat split.
  intros env' Hv'. rewrite Hv'. reflexivity.
Qed.

(** C3.  On well-formed input that parses, the root is the first top-level
    key other than the declaration key; the root error is pushed exactly
    when there is no such key or its name, stripped of its prefix, is not
    svg, and it quotes the key as found; the tag walk runs in either case.
    A root spelled Svg is rejected, a root ns:svg is accepted. *)
Theorem root_element_check (svgCode : string) (jsonObj : list (string * JsValue)) :
  XMLValidator_validate env svgCode = VTrue ->
  XMLParser_parse env EmptyString svgCode = Returned jsonObj ->
  let verdict := validateSvgContent env svgCode in
  let rootTag := findRootTag (map fst jsonObj) in
  warnings verdict = checkTags env (JObj jsonObj)
  /\ (rootTag = None ->
      errors verdict = ["Root element must be 'svg', found 'none'"])
  /\ (forall tag, rootTag = Some tag -> tag <> EmptyString ->
      Js.stripNamespace tag = "svg" -> errors verdict = [])
  /\ (forall tag, rootTag = Some tag -> tag <> EmptyString ->
      Js.stripNamespace tag <> "svg" ->
      errors verdict = ["Root element must be 'svg', found '" +:+ tag +:+ "'"])
  /\ (rootTag = Some EmptyString ->
      errors verdict = ["Root element must be 'svg', found 'none'"])
  /\ (forall tag rest, map fst jsonObj = "?xml" :: tag :: rest ->
      tag <> "?xml" -> rootTag = Some tag)
  /\ (forall rest, map fst jsonObj = "Svg" :: rest -> valid verdict = false)
  /\ (forall rest, map fst jsonObj = "ns:svg" :: rest -> errors verdict = []).
Proof.
  intros Hv Hp verdict rootTag. subst verdict rootTag.
  unfold validateSvgContent. rewrite Hv, Hp. cbn [warnings errors valid].
  split; [reflexivity|].
  split; [intros ->; reflexivity|].
  split.
  { intros tag -> Hne Hs. unfold rootErrors, rootRejected, Js.str_eqb.
    destruct tag; [congruence|]. rewrite Hs. reflexivity. }
  split.
  { intros tag -> Hne Hs. unfold rootErrors, rootRejected, rootShown, Js.str_eqb.
    destruct tag; [congruence|].
    rewrite bool_decide_eq_false_2 by assumption. reflexivity. }
  split; [intros ->; reflexivity|].
  split.
  { intros tag rest -> Hne. rewrite findRootTag_skips_declaration.
    apply findRootTag_first, Hne. }
  split; intros rest ->; reflexivity.
Qed.

(** C4.  The verdict is valid exactly when it has no error; validity is
    computed from the errors alone, so another vocabulary, which can only
    change the warnings, leaves validity and errors as they are. *)
Theorem valid_iff_no_errors (svgCode : string) :
  let verdict := validateSvgContent env svgCode in
  (valid verdict = true <-> errors verdict = [])
  /\ (valid verdict = false <-> errors verdict <> [])
  /\ valid verdict = length_is_0 (errors verdict)
  /\ forall tags : gset string,
       valid (validateSvgContent (withTags env tags) svgCode) = valid verdict
       /\ errors (validateSvgContent (withTags env tags) svgCode) = errors verdict.
Proof.
  intros verdict.
  assert (Hval : valid verdict = length_is_0 (errors verdict)).
  { subst verdict. unfold validateSvgContent.
    destruct (XMLValidator_validate env svgCode); [|reflexivity].
    destruct (XMLParser_parse env EmptyString svgCode); reflexivity. }
  split; [rewrite Hval; apply length_is_0_nil|].
  split.
  { rewrite Hval. destruct (errors verdict); simpl; split; congruence. }
  split; [exact Hval|].
  intros tags. subst verdict. unfold validateSvgContent.
  cbn [withTags XMLValidator_validate XMLParser_parse].
  destruct (XMLValidator_validate env svgCode); [|split; reflexivity].
  destruct (XMLParser_parse env EmptyString svgCode); split; reflexivity.
Qed.

End ValidatorFacts.

(** * Text and bytes *)

Module Utf16Facts.
Import Utf16.

Lemma byteZ_zByte (z : Z) : 0 <= z < 256 -> Base64.byteZ (Base64.zByte z) = z.
Proof.
  intros Hz. unfold Base64.byteZ, Base64.zByte.
  destruct (Byte.of_N (Z.to_N z)) as [b|] eqn:Hb.
  - apply Byte.to_of_N in Hb. rewrite Hb. lia.
  - apply Byte.of_N_None_iff in Hb. lia.
Qed.

Lemma map_byteZ_zByte (zs : list Z) :
  Forall (fun z => 0 <= z < 256) zs ->
  map Base64.byteZ (map Base64.zByte zs) = zs.
Proof.
  induction 1 as [|z zs Hz _ IH]; [reflexivity|].
  cbn [map]. rewrite byteZ_zByte by exact Hz. rewrite IH. reflexivity.
Qed.

(** Induction that can step over one unit or over a pair. *)
Lemma two_step_ind (P : list Z -> Prop) :
  P [] -> (forall u, P [u]) ->
  (forall u l rest, P (l :: rest) -> P rest -> P (u :: l :: rest)) ->
  forall text, P text.
Proof.
  intros H0 H1 H2. fix IH 1. intros [|u tail].
  - exact H0.
  - pose proof (IH tail) as Htail. destruct tail as [|l rest].
    + apply H1.
    + apply H2; [exact Htail|apply IH].
Qed.

Lemma isCodeUnit_range (u : Z) : isCodeUnit u = true -> 0 <= u < 65536.
Proof. unfold isCodeUnit. lia. Qed.

Lemma isHigh_range (u : Z) : isHigh u = true -> 55296 <= u <= 56319.
Proof. unfold isHigh. lia. Qed.

Lemma isLow_range (u : Z) : isLow u = true -> 56320 <= u <= 57343.
Proof. unfold isLow. lia. Qed.

Lemma not_surrogate_range (u : Z) :
  isCodeUnit u = true -> isHigh u = false -> isLow u = false ->
  0 <= u < 55296 \/ 57343 < u < 65536.
Proof. unfold isCodeUnit, isHigh, isLow. lia. Qed.

Lemma combine_range (h l : Z) :
  isHigh h = true -> isLow l = true -> 65536 <= combine h l < 1114112.
Proof.
  intros Hh Hl. apply isHigh_range in Hh. apply isLow_range in Hl.
  unfold combine. lia.
Qed.

(** Settle the comparisons of the decoder on bytes given by quotients and
    remainders. *)
Ltac arith := Z.div_mod_to_equations; lia.

Ltac settle :=
  repeat match goal with
  | |- context [?a <? ?b] =>
      first [ rewrite (proj2 (Z.ltb_lt a b)) by arith
            | rewrite (proj2 (Z.ltb_ge a b)) by arith ]
  | |- context [?a <=? ?b] =>
      first [ rewrite (proj2 (Z.leb_le a b)) by arith
            | rewrite (proj2 (Z.leb_gt a b)) by arith ]
  end.

Lemma decode_encodeUnit (u : Z) (tail : list Z) :
  0 <= u < 65536 ->
  decode (encodeUnit u ++ tail) = cons u <$> decode tail.
Proof.
  intros Hu. unfold encodeUnit.
  destruct (Z.ltb_spec u 128); [|destruct (Z.ltb_spec u 2048)];
    cbn [app decode]; unfold continuation; settle;
    cbn [andb mbind option_bind]; destruct (decode tail); cbn; f_equal; f_equal;
    arith.
Qed.

Lemma decode_encodePair (h l : Z) (tail : list Z) :
  isHigh h = true -> isLow l = true ->
  decode (encodePair h l ++ tail) = (fun r => h :: l :: r) <$> decode tail.
Proof.
  intros Hh Hl. pose proof (combine_range h l Hh Hl) as Hcp.
  assert (Hback : (combine h l - 65536) / 1024 = h - 55296
                  /\ (combine h l - 65536) mod 1024 = l - 56320).
  { apply isHigh_range in Hh. apply isLow_range in Hl. unfold combine. arith. }
  unfold encodePair. cbv zeta. generalize dependent (combine h l).
  intros cp Hcp [Hq Hr].
  cbn [app decode]; unfold continuation; settle.
  cbn [andb mbind option_bind].
  replace ((240 + cp / 262144 - 240) * 262144
           + (128 + (cp / 4096) mod 64 - 128) * 4096
           + (128 + (cp / 64) mod 64 - 128) * 64
           + (128 + cp mod 64 - 128) - 65536) with (cp - 65536) by arith.
  rewrite Hq, Hr. destruct (decode tail); cbn; f_equal; f_equal; [lia|].
  f_equal. lia.
Qed.

Lemma utf8_cons (u : Z) (rest : list Z) :
  utf8 (u :: rest) =
    if isHigh u then
      match rest with
      | l :: rest' =>
          if isLow l then encodePair u l ++ utf8 rest'
          else replacement ++ utf8 rest
      | [] => replacement
      end
    else if isLow u then replacement ++ utf8 rest
    else encodeUnit u ++ utf8 rest.
Proof. reflexivity. Qed.

Lemma wellFormed_cons (u : Z) (rest : list Z) :
  wellFormed (u :: rest) =
    isCodeUnit u &&
    (if isHigh u then
       match rest with
       | l :: rest' => isLow l && wellFormed rest'
       | [] => false
       end
     else negb (isLow u) && wellFormed rest).
Proof. reflexivity. Qed.

(** Reading back what was written gives the text, when no surrogate is
    unpaired. *)
Lemma decode_utf8 (text : list Z) :
  wellFormed text = true -> decode (utf8 text) = Some text.
Proof.
  induction text as [|u|u l rest IHtail IHrest] using two_step_ind.
  - reflexivity.
  - rewrite utf8_cons, wellFormed_cons. cbv beta iota. intros Hwf.
    apply andb_prop in Hwf as [Hunit Hwf]. destruct (isHigh u); [discriminate|].
    apply andb_prop in Hwf as [Hlow _]. apply negb_true_iff in Hlow.
    rewrite Hlow, decode_encodeUnit by (apply isCodeUnit_range, Hunit).
    reflexivity.
  - rewrite utf8_cons, wellFormed_cons. cbv beta iota. intros Hwf.
    apply andb_prop in Hwf as [Hunit Hwf]. destruct (isHigh u) eqn:Hhigh.
    + apply andb_prop in Hwf as [Hlow Hrest]. rewrite Hlow.
      rewrite decode_encodePair by assumption.
      rewrite (IHrest Hrest). reflexivity.
    + apply andb_prop in Hwf as [Hlow Htail]. apply negb_true_iff in Hlow.
      rewrite Hlow, decode_encodeUnit by (apply isCodeUnit_range, Hunit).
      rewrite (IHtail Htail). reflexivity.
Qed.

Lemma encodeUnit_bytes (u : Z) : 0 <= u < 65536 -> Forall isByte (encodeUnit u).
Proof.
  intros Hu. unfold encodeUnit, isByte.
  destruct (Z.ltb_spec u 128); [|destruct (Z.ltb_spec u 2048)];
    repeat constructor; arith.
Qed.

Lemma encodePair_bytes (h l : Z) :
  isHigh h = true -> isLow l = true -> Forall isByte (encodePair h l).
Proof.
  intros Hh Hl. pose proof (combine_range h l Hh Hl) as Hcp.
  unfold encodePair, isByte. cbv zeta. repeat constructor; arith.
Qed.

Lemma utf8_bytes (text : list Z) :
  wellFormed text = true -> Forall isByte (utf8 text).
Proof.
  induction text as [|u|u l rest IHtail IHrest] using two_step_ind.
  - constructor.
  - rewrite utf8_cons, wellFormed_cons. cbv beta iota. intros Hwf.
    apply andb_prop in Hwf as [Hunit Hwf]. destruct (isHigh u); [discriminate|].
    apply andb_prop in Hwf as [Hlow _]. apply negb_true_iff in Hlow.
    rewrite Hlow, app_nil_r. apply encodeUnit_bytes, isCodeUnit_range, Hunit.
  - rewrite utf8_cons, wellFormed_cons. cbv beta iota. intros Hwf.
    apply andb_prop in Hwf as [Hunit Hwf]. destruct (isHigh u) eqn:Hhigh.
    + apply andb_prop in Hwf as [Hlow Hrest]. rewrite Hlow.
      apply Forall_app. split; [apply encodePair_bytes; assumption|].
      exact (IHrest Hrest).
    + apply andb_prop in Hwf as [Hlow Htail]. apply negb_true_iff in Hlow.
      rewrite Hlow. apply Forall_app. split.
      * apply encodeUnit_bytes, isCodeUnit_range, Hunit.
      * exact (IHtail Htail).
Qed.

(** [Buffer.from(text).toString()] is [text] for a text without unpaired
    surrogate. *)
Lemma toString_Buffer_from (text : list Z) :
  wellFormed text = true -> toString (Buffer_from text) = Some text.
Proof.
  intros Hwf. unfold toString, Buffer_from.
  rewrite map_byteZ_zByte by (apply utf8_bytes, Hwf).
  apply decode_utf8, Hwf.
Qed.

Lemma toWellFormed_cons (u : Z) (rest : list Z) :
  toWellFormed (u :: rest) =
    if isHigh u then
      match rest with
      | l :: rest' =>
          if isLow l then u :: l :: toWellFormed rest'
          else 65533 :: toWellFormed rest
      | [] => [65533]
      end
    else if isLow u then 65533 :: toWellFormed rest
    else u :: toWellFormed rest.
Proof. reflexivity. Qed.

Lemma decode_replacement (tail : list Z) :
  decode (replacement ++ tail) = cons 65533 <$> decode tail.
Proof. apply (decode_encodeUnit 65533). lia. Qed.

Lemma replacement_bytes : Forall isByte replacement.
Proof. apply (encodeUnit_bytes 65533). lia. Qed.

(** Reading back what was written gives the text with every unpaired
    surrogate replaced. *)
Lemma decode_utf8_any (text : list Z) :
  codeUnits text -> decode (utf8 text) = Some (toWellFormed text).
Proof.
  unfold codeUnits.
  induction text as [|u|u l rest IHtail IHrest] using two_step_ind.
  - reflexivity.
  - intros Hunits. apply Forall_inv in Hunits as Hu.
    rewrite utf8_cons, toWellFormed_cons.
    destruct (isHigh u); [reflexivity|].
    destruct (isLow u); [reflexivity|].
    rewrite decode_encodeUnit by (apply isCodeUnit_range, Hu). reflexivity.
  - intros Hunits. apply Forall_inv in Hunits as Hu.
    apply Forall_inv_tail in Hunits as Htail.
    apply Forall_inv_tail in Htail as Hrest.
    rewrite utf8_cons, toWellFormed_cons. cbv beta iota.
    destruct (isHigh u) eqn:Hhigh.
    + destruct (isLow l) eqn:Hlow.
      * rewrite decode_encodePair by assumption.
        rewrite (IHrest Hrest). reflexivity.
      * rewrite decode_replacement, (IHtail Htail). reflexivity.
    + destruct (isLow u).
      * rewrite decode_replacement, (IHtail Htail). reflexivity.
      * rewrite decode_encodeUnit by (apply isCodeUnit_range, Hu).
        rewrite (IHtail Htail). reflexivity.
Qed.

Lemma utf8_bytes_any (text : list Z) : codeUnits text -> Forall isByte (utf8 text).
Proof.
  unfold codeUnits.
  induction text as [|u|u l rest IHtail IHrest] using two_step_ind.
  - constructor.
  - intros Hunits. apply Forall_inv in Hunits as Hu. rewrite utf8_cons.
    destruct (isHigh u); [apply replacement_bytes|].
    destruct (isLow u); [apply replacement_bytes|].
    rewrite app_nil_r. apply encodeUnit_bytes, isCodeUnit_range, Hu.
  - intros Hunits. apply Forall_inv in Hunits as Hu.
    apply Forall_inv_tail in Hunits as Htail.
    apply Forall_inv_tail in Htail as Hrest.
    rewrite utf8_cons. cbv beta iota.
    destruct (isHigh u) eqn:Hhigh.
    + destruct (isLow l) eqn:Hlow; apply Forall_app; split.
      * apply encodePair_bytes; assumption.
      * exact (IHrest Hrest).
      * apply replacement_bytes.
      * exact (IHtail Htail).
    + destruct (isLow u); apply Forall_app; split.
      * apply replacement_bytes.
      * exact (IHtail Htail).
      * apply encodeUnit_bytes, isCodeUnit_range, Hu.
      * exact (IHtail Htail).
Qed.

(** [Buffer.from(text).toString()] is [text.toWellFormed()]. *)
Lemma toString_Buffer_from_any (text : list Z) :
  codeUnits text -> toString (Buffer_from text) = Some (toWellFormed text).
Proof.
  intros Hunits. unfold toString, Buffer_from.
  rewrite map_byteZ_zByte by (apply utf8_bytes_any, Hunits).
  apply decode_utf8_any, Hunits.
Qed.

Lemma payload_determines_buffer (a b : list Z) :
  Base64.encode (Buffer_from a) = Base64.encode (Buffer_from b) ->
  Buffer_from a = Buffer_from b.
Proof.
  intros Heq.
  assert (Hsome : Some (Buffer_from a) = Some (Buffer_from b)).
  { rewrite <- !Base64Facts.decode_encode, Heq. reflexivity. }
  inversion Hsome. reflexivity.
Qed.

End Utf16Facts.

(** * The handlers *)

Section HandlerFacts.

Variable env : Collaborators.


Lemma withSvgExtension_icon : withSvgExtension "icon" = "icon.svg".
Proof. reflexivity. Qed.

(** C5.  When the validator rejects the source, render_svg throws the
    validation errors at once: the world is left as it was, so the
    rasterizer has not been called, and what comes back is a fault, not an
    envelope, hence no image item. *)
Theorem render_rejects_invalid_svg (svg_code : string) (width height : option Z)
    (w : World) :
  valid (validateSvgContent env svg_code) = false ->
  render_svg env svg_code width height w =
    (Thrown (Error ("Invalid SVG: " +:+
                    Js.join "; " (errors (validateSvgContent env svg_code)))), w)
  /\ (forall r : Response,
       fst (render_svg env svg_code width height w) <> Returned r)
  /\ imageItems (fst (render_svg env svg_code width height w)) = []
  /\ calls (snd (render_svg env svg_code width height w)) = calls w.
Proof.
  intros Hinvalid. unfold render_svg. rewrite Hinvalid. cbn [negb].
  unfold throw. repeat split. intros r. discriminate.
Qed.

(** C7.  With the file system accepting the two calls, saving under the
    name icon without optimization makes the directory of the resolved
    path, writes the source unchanged to that path, which ends in
    icon.svg and is absolute when the working directory is, and returns
    the path as the text of a success envelope. *)
Theorem save_icon_unoptimized (svg_code : string) (w : World) :
  let finalPath := resolveInCwd env "icon.svg" in
  let dir := Path.dirname finalPath in
  fs_mkdir env (files w) dir = Returned tt ->
  fs_writeFile env (files w) finalPath svg_code = Returned tt ->
  fst (save_svg env svg_code "icon" false w) = Returned (textResponse finalPath)
  /\ files (snd (save_svg env svg_code "icon" false w)) !! finalPath
     = Some svg_code
  /\ calls (snd (save_svg env svg_code "icon" false w))
     = calls w ++ [EvMkdir dir; EvWriteFile finalPath svg_code]
  /\ Js.endsWith "icon.svg" finalPath = true
  /\ (Path.isAbsolute (process_cwd env) = true ->
      Path.isAbsolute finalPath = true).
Proof.
  intros finalPath dir Hmkdir Hwrite.
  unfold save_svg, tryCatch, bind, ret, mkdir_recursive, call, writeFile.
  rewrite withSvgExtension_icon. fold finalPath. fold dir.
  cbn [files record]. rewrite Hmkdir, Hwrite. cbn [fst snd files calls store record].
  split; [reflexivity|].
  split; [apply lookup_insert_eq|].
  split; [rewrite <- app_assoc; reflexivity|].
  apply PathFacts.resolve_icon_svg.
Qed.

(** C10.  When the minifier throws inside save_svg, the failure is only
    logged: the response and the files are those of a save without
    optimization, and with the file system accepting the two calls the
    original source is written to the resolved path, which is returned
    in a success envelope. *)
Theorem save_falls_back_on_minifier_failure (svg_code filename : string)
    (e : JsError) (w : World) :
  svgo_optimize env svg_code savePlugins = Thrown e ->
  let finalPath := resolveInCwd env (withSvgExtension filename) in
  let dir := Path.dirname finalPath in
  let optimized := save_svg env svg_code filename true w in
  let plain := save_svg env svg_code filename false w in
  fst optimized = fst plain
  /\ files (snd optimized) = files (snd plain)
  /\ (fs_mkdir env (files w) dir = Returned tt ->
      fs_writeFile env (files w) finalPath svg_code = Returned tt ->
      fst optimized = Returned (textResponse finalPath)
      /\ files (snd optimized) !! finalPath = Some svg_code
      /\ calls (snd optimized)
         = calls w ++ [EvOptimize svg_code savePlugins;
                       EvConsoleWarn "Optimization failed, saving original" e;
                       EvMkdir dir; EvWriteFile finalPath svg_code]).
Proof.
  intros Hfail finalPath dir optimized plain. subst optimized plain.
  unfold save_svg, tryCatch, bind, ret, mkdir_recursive, optimize,
    console_warn, call, writeFile.
  fold finalPath. fold dir. rewrite Hfail. cbn [files record].
  destruct (fs_mkdir env (files w) dir) as [[]|e1].
  - destruct (fs_writeFile env (files w) finalPath svg_code) as [[]|e2].
    + cbn [fst snd files calls store record].
      split; [reflexivity|]. split; [reflexivity|]. intros _ _.
      split; [reflexivity|].
      split; [apply lookup_insert_eq|].
      rewrite <- !app_assoc. reflexivity.
    + cbn [fst snd files calls store record].
      split; [reflexivity|]. split; [reflexivity|]. intros _ Hw. discriminate Hw.
  - cbn [fst snd files calls store record].
    split; [reflexivity|]. split; [reflexivity|]. intros Hm. discriminate Hm.
Qed.


End HandlerFacts.

(** The handler on bytes, used where only the bytes matter, is the handler
    on text once [Buffer.from] has turned the text into bytes. *)
Lemma svg_to_data_uri_on_bytes (svg_code : list Z) :
  OnText.svg_to_data_uri svg_code =
    svg_to_data_uri (String.string_of_list_byte (Utf16.Buffer_from svg_code)).
Proof.
  unfold OnText.svg_to_data_uri, svg_to_data_uri, Base64.Buffer_from.
  rewrite String.list_byte_of_string_of_list_byte. reflexivity.
Qed.

(** C8 (as amended).  The text svg_to_data_uri returns is the data-URI
    prefix followed by a payload that decodes, byte for byte, to what
    Buffer.from makes of the input: its UTF-8 bytes.  Read as UTF-8, those
    bytes are the input with every unpaired surrogate replaced by U+FFFD,
    hence the input itself when it holds no unpaired surrogate. *)
Theorem data_uri_decodes_to_buffer (svg_code : list Z) (w : World) :
  exists payload : string,
    OnText.svg_to_data_uri svg_code w =
      (Returned (textResponse ("data:image/svg+xml;base64," +:+ payload)), w)
    /\ Base64.stripPrefix "data:image/svg+xml;base64,"
         ("data:image/svg+xml;base64," +:+ payload) = Some payload
    /\ Base64.decode payload = Some (Utf16.Buffer_from svg_code)
    /\ (Utf16.codeUnits svg_code ->
        Base64.decode payload ≫= Utf16.toString
        = Some (Utf16.toWellFormed svg_code))
    /\ (Utf16.wellFormed svg_code = true ->
        Base64.decode payload ≫= Utf16.toString = Some svg_code).
Proof.
  exists (Base64.encode (Utf16.Buffer_from svg_code)).
  split; [reflexivity|].
  split; [apply Base64Facts.stripPrefix_app|].
  rewrite Base64Facts.decode_encode. split; [reflexivity|].
  cbn [mbind option_bind]. split.
  - apply Utf16Facts.toString_Buffer_from_any.
  - apply Utf16Facts.toString_Buffer_from.
Qed.

(** C8 (counterexample).  The one-unit string that holds the unpaired
    surrogate U+D800 gets the payload of U+FFFD: decoding it gives U+FFFD,
    not the input, and the two strings share their data URI. *)
Lemma data_uri_loses_unpaired_surrogate :
  Utf16.codeUnits [55296]
  /\ fst (OnText.svg_to_data_uri [55296] Examples.emptyWorld)
     = Returned (textResponse "data:image/svg+xml;base64,77+9")
  /\ Base64.decode "77+9" ≫= Utf16.toString = Some [65533]
  /\ Base64.decode "77+9" ≫= Utf16.toString <> Some [55296]
  /\ fst (OnText.svg_to_data_uri [65533] Examples.emptyWorld)
     = fst (OnText.svg_to_data_uri [55296] Examples.emptyWorld).
Proof.
  split; [repeat constructor|].
  split; [reflexivity|]. split; [reflexivity|].
  split; [|reflexivity]. intros Heq. vm_compute in Heq. discriminate Heq.
Qed.


(** * Dispatch *)

Section DispatchFacts.

Variable env : Collaborators.

(** The registered names are pairwise distinct: a name finds its tool. *)
Lemma findTool_registered (t : Tool) :
  In t (tools env) -> findTool env (tool_name t) = Some t.
Proof.
  intros Hin. repeat (destruct Hin as [<-|Hin]; [reflexivity|]). destruct Hin.
Qed.

Lemma checkParam_missing (args : gmap string JsValue) (schema : list Param) p :
  In p schema -> presence p = Required -> args !! pname p = None ->
  In (MissingParameter (pname p)) (flat_map (checkParam args) schema).
Proof.
  intros Hin Hreq Habsent. apply in_flat_map. exists p. split; [exact Hin|].
  unfold checkParam. rewrite Habsent, Hreq. left. reflexivity.
Qed.

Lemma checkParam_extra_key (args : gmap string JsValue) k v p :
  pname p <> k -> checkParam (<[k := v]> args) p = checkParam args p.
Proof.
  intros Hne. unfold checkParam. rewrite lookup_insert_ne by congruence.
  reflexivity.
Qed.

Lemma fillParam_extra_key (args validated : gmap string JsValue) k v p :
  pname p <> k -> fillParam (<[k := v]> args) validated p = fillParam args validated p.
Proof.
  intros Hne. unfold fillParam. rewrite lookup_insert_ne by congruence.
  reflexivity.
Qed.

Lemma validateRequest_extra_key (schema : list Param)
    (args : gmap string JsValue) k v :
  (forall p, In p schema -> pname p <> k) ->
  validateRequest schema (<[k := v]> args) = validateRequest schema args.
Proof.
  intros Hundeclared. unfold validateRequest.
  assert (Hissues : flat_map (checkParam (<[k := v]> args)) schema
                    = flat_map (checkParam args) schema).
  { induction schema as [|p schema IH]; [reflexivity|]. cbn [flat_map].
    rewrite checkParam_extra_key by (apply Hundeclared; left; reflexivity).
    rewrite IH; [reflexivity|]. intros q Hq. apply Hundeclared. right. exact Hq. }
  rewrite Hissues.
  assert (Hfill : forall acc,
    fold_left (fillParam (<[k := v]> args)) schema acc
    = fold_left (fillParam args) schema acc).
  { induction schema as [|p schema IH]; [reflexivity|]. intros acc.
    cbn [fold_left].
    rewrite fillParam_extra_key by (apply Hundeclared; left; reflexivity).
    apply IH.
    - intros q Hq. apply Hundeclared. right. exact Hq.
    - clear -Hissues Hundeclared.
      cbn [flat_map] in Hissues.
      rewrite checkParam_extra_key in Hissues
        by (apply Hundeclared; left; reflexivity).
      apply app_inv_head in Hissues. exact Hissues. }
  rewrite Hfill. reflexivity.
Qed.

Lemma fillParam_other (args validated : gmap string JsValue) q k :
  pname q <> k -> fillParam args validated q !! k = validated !! k.
Proof.
  intros Hne. unfold fillParam.
  destruct (args !! pname q); [apply lookup_insert_ne, Hne|].
  destruct (presence q); try reflexivity. apply lookup_insert_ne, Hne.
Qed.

Lemma fill_others (args : gmap string JsValue) (schema : list Param)
    (validated : gmap string JsValue) k :
  (forall q, In q schema -> pname q <> k) ->
  fold_left (fillParam args) schema validated !! k = validated !! k.
Proof.
  revert validated. induction schema as [|q schema IH]; intros validated Hother;
    [reflexivity|].
  cbn [fold_left]. rewrite IH.
  - apply fillParam_other, Hother. left. reflexivity.
  - intros q' Hq'. apply Hother. right. exact Hq'.
Qed.

(** What a declared parameter reaches the handler with. *)
Lemma fill_lookup (args : gmap string JsValue) (schema : list Param)
    (validated : gmap string JsValue) p :
  List.NoDup (map pname schema) -> In p schema ->
  validated !! pname p = None ->
  fold_left (fillParam args) schema validated !! pname p =
    match args !! pname p with
    | Some v => Some v
    | None =>
        match presence p with
        | WithDefault d => Some d
        | Required | Optional => None
        end
    end.
Proof.
  revert validated.
  induction schema as [|q schema IH]; intros validated Hnodup Hin Hfresh;
    [destruct Hin|].
  cbn [map] in Hnodup. apply List.NoDup_cons_iff in Hnodup as [Hq Hnodup].
  cbn [fold_left]. destruct Hin as [->|Hin].
  - rewrite fill_others.
    + unfold fillParam. destruct (args !! pname p); [apply lookup_insert_eq|].
      destruct (presence p); try exact Hfresh. apply lookup_insert_eq.
    + intros q' Hq' Heq. apply Hq. rewrite <- Heq.
      apply in_map. exact Hq'.
  - apply IH; [exact Hnodup|exact Hin|].
    rewrite fillParam_other; [exact Hfresh|].
    intros Heq. apply Hq. rewrite Heq. apply in_map. exact Hin.
Qed.

(** No tool declares a parameter twice. *)
Lemma declared_once (t : Tool) :
  In t (tools env) -> List.NoDup (map pname (inputSchema t)).
Proof.
  intros Hin.
  repeat (destruct Hin as [<-|Hin];
          [repeat (constructor; [cbn; intuition discriminate|]); constructor|]).
  destruct Hin.
Qed.

(** C9.  A request that leaves out a required parameter of a registered
    tool is rejected with a missing-parameter issue and the world is left
    as it was: no handler has run.  A key the tool does not declare changes
    nothing.  When a request is accepted, the handler runs on arguments in
    which every declared parameter holds the supplied value, else its
    declared default, else nothing: save_svg called without optimize runs
    with optimize true, svg_to_react and svg_to_react_native called without
    component_name run with SvgComponent. *)
Theorem request_validation (args : gmap string JsValue) (w : World) :
  (forall t p, In t (tools env) -> In p (inputSchema t) ->
     presence p = Required -> args !! pname p = None ->
     exists issues,
       dispatch env (tool_name t) args w = (inl (InvalidArguments issues), w)
       /\ In (MissingParameter (pname p)) issues)
  /\ (forall t k v, In t (tools env) ->
     (forall p, In p (inputSchema t) -> pname p <> k) ->
     dispatch env (tool_name t) (<[k := v]> args) w
     = dispatch env (tool_name t) args w)
  /\ (forall t p validated, In t (tools env) -> In p (inputSchema t) ->
     validateRequest (inputSchema t) args = inr validated ->
     validated !! pname p =
       match args !! pname p with
       | Some v => Some v
       | None =>
           match presence p with
           | WithDefault d => Some d
           | Required | Optional => None
           end
       end
     /\ dispatch env (tool_name t) args w
        = (inr (fst (handler t validated w)), snd (handler t validated w)))
  /\ (forall svg_code filename,
     args !! "svg_code" = Some (JStr svg_code) ->
     args !! "filename" = Some (JStr filename) ->
     args !! "optimize" = None ->
     dispatch env "save_svg" args w
     = (inr (fst (save_svg env svg_code filename true w)),
        snd (save_svg env svg_code filename true w)))
  /\ (forall svg_code,
     args !! "svg_code" = Some (JStr svg_code) ->
     args !! "component_name" = None ->
     dispatch env "svg_to_react" args w
     = (inr (fst (svg_to_react env svg_code "SvgComponent" w)),
        snd (svg_to_react env svg_code "SvgComponent" w))
     /\ dispatch env "svg_to_react_native" args w
        = (inr (fst (svg_to_react_native env svg_code "SvgComponent" w)),
           snd (svg_to_react_native env svg_code "SvgComponent" w))).
Proof.
  split; [|split; [|split; [|split]]].
  - intros t p Ht Hp Hreq Habsent. unfold dispatch.
    rewrite (findTool_registered t Ht). unfold validateRequest.
    pose proof (checkParam_missing args (inputSchema t) p Hp Hreq Habsent) as Hin.
    destruct (flat_map (checkParam args) (inputSchema t)) as [|i issues];
      [destruct Hin|].
    exists (i :: issues). split; [reflexivity|exact Hin].
  - intros t k v Ht Hundeclared. unfold dispatch.
    rewrite (findTool_registered t Ht).
    rewrite validateRequest_extra_key by exact Hundeclared. reflexivity.
  - intros t p validated Ht Hp Hvalid. split.
    + unfold validateRequest in Hvalid.
      destruct (flat_map (checkParam args) (inputSchema t)); [|discriminate].
      inversion Hvalid; subst.
      apply fill_lookup; [apply declared_once, Ht|exact Hp|apply lookup_empty].
    + unfold dispatch. rewrite (findTool_registered t Ht), Hvalid.
      destruct (handler t validated w). reflexivity.
  - intros svg_code filename Hsvg Hname Hopt. unfold dispatch.
    change (findTool env "save_svg") with (Some (save_svg_tool env)).
    unfold save_svg_tool. cbn [inputSchema handler]. unfold validateRequest.
    cbn [flat_map]. unfold checkParam, svg_code_param.
    cbn [pname ptype presence]. rewrite Hsvg, Hname, Hopt.
    cbn [hasType app fold_left]. unfold fillParam.
    cbn [pname ptype presence]. rewrite Hsvg, Hname, Hopt.
    unfold argString, argBool.
    rewrite lookup_insert_eq.
    rewrite (lookup_insert_ne _ "optimize" "svg_code") by discriminate.
    rewrite (lookup_insert_ne _ "optimize" "filename") by discriminate.
    rewrite lookup_insert_eq.
    rewrite (lookup_insert_ne _ "filename" "svg_code") by discriminate.
    rewrite lookup_insert_eq.
    destruct (save_svg env svg_code filename true w). reflexivity.
  - intros svg_code Hsvg Hname. split; unfold dispatch.
    + change (findTool env "svg_to_react") with (Some (svg_to_react_tool env)).
      unfold svg_to_react_tool. cbn [inputSchema handler].
      unfold validateRequest.
      cbn [flat_map]. unfold checkParam, svg_code_param, component_name_param.
      cbn [pname ptype presence]. rewrite Hsvg, Hname.
      cbn [hasType app fold_left]. unfold fillParam.
      cbn [pname ptype presence]. rewrite Hsvg, Hname.
      unfold argString.
      rewrite lookup_insert_eq.
      rewrite (lookup_insert_ne _ "component_name" "svg_code") by discriminate.
      rewrite lookup_insert_eq.
      destruct (svg_to_react env svg_code "SvgComponent" w). reflexivity.
    + change (findTool env "svg_to_react_native")
        with (Some (svg_to_react_native_tool env)).
      unfold svg_to_react_native_tool. cbn [inputSchema handler].
      unfold validateRequest.
      cbn [flat_map]. unfold checkParam, svg_code_param, component_name_param.
      cbn [pname ptype presence]. rewrite Hsvg, Hname.
      cbn [hasType app fold_left]. unfold fillParam.
      cbn [pname ptype presence]. rewrite Hsvg, Hname.
      unfold argString.
      rewrite lookup_insert_eq.
      rewrite (lookup_insert_ne _ "component_name" "svg_code") by discriminate.
      rewrite lookup_insert_eq.
      destruct (svg_to_react_native env svg_code "SvgComponent" w). reflexivity.
Qed.

End DispatchFacts.

(** * The theorems at work on concrete documents *)

Section Runs.

Import Examples.

(** An unknown element that carries an attribute is reported ... *)
Example attribute_bearing_element_warned :
  validateSvgContent working "<svg><customShape id='a'/></svg>" =
    {| valid := true; errors := [];
       warnings := ["Non-standard SVG tag found: 'customShape'"] |}.
Proof. reflexivity. Qed.

(** ... and so is one that sits deeper, through the general lemma. *)
Example nested_element_warned :
  In "Non-standard SVG tag found: 'blob'"
     (checkTags working
        (JObj [("svg", JObj [("g", JArr [JObj [("x:blob", JObj [])]])])])).
Proof.
  apply (checkTags_visits_objects working "x:blob"); [|left; reflexivity].
  eapply ObjectProperty_in_object; [left; reflexivity|].
  eapply ObjectProperty_in_object; [left; reflexivity|].
  eapply ObjectProperty_in_array; [left; reflexivity|].
  eapply ObjectProperty_here; [left; reflexivity|reflexivity].
Qed.

Lemma leaf_element_gets_no_warning_witness :
  XMLValidator_validate working "<svg><customShape/></svg>" = VTrue
  /\ XMLParser_parse working EmptyString "<svg><customShape/></svg>"
     = Returned [("svg", JObj [("customShape", JStr EmptyString)])]
  /\ typeof_object (JStr EmptyString) = false
  /\ validateSvgContent working "<svg><customShape/></svg>" =
       {| valid := true; errors := []; warnings := [] |}.
Proof.
  split; [reflexivity|]. split; [reflexivity|]. split; [reflexivity|].
  apply (leaf_element_gets_no_warning working "<svg><customShape/></svg>"
           "customShape" (JStr EmptyString)); reflexivity.
Defined.

Lemma malformed_xml_fails_fast_witness :
  XMLValidator_validate working "<svg><rect></svg>" = VFail (Some unclosedRect)
  /\ validateSvgContent working "<svg><rect></svg>" =
       {| valid := false;
          errors := ["XML Syntax Error: " +:+ unclosedRect];
          warnings := [] |}.
Proof.
  split; [reflexivity|].
  destruct (malformed_xml_fails_fast working "<svg><rect></svg>"
              (Some unclosedRect) eq_refl) as (Hverdict & _).
  exact Hverdict.
Defined.

Lemma root_element_check_witness :
  XMLValidator_validate working "<notsvg/>" = VTrue
  /\ XMLParser_parse working EmptyString "<notsvg/>"
     = Returned [("notsvg", JStr EmptyString)]
  /\ errors (validateSvgContent working "<notsvg/>")
     = ["Root element must be 'svg', found 'notsvg'"].
Proof.
  split; [reflexivity|]. split; [reflexivity|].
  destruct (root_element_check working "<notsvg/>"
              [("notsvg", JStr EmptyString)] eq_refl eq_refl)
    as (_ & _ & _ & Hother & _).
  apply (Hother "notsvg"); [reflexivity|discriminate|discriminate].
Defined.

Lemma valid_iff_no_errors_witness :
  valid (validateSvgContent working "<Svg/>") = false
  <-> errors (validateSvgContent working "<Svg/>") <> [].
Proof.
  destruct (valid_iff_no_errors working "<Svg/>") as (_ & H & _). exact H.
Defined.

Lemma render_rejects_invalid_svg_witness :
  valid (validateSvgContent working "<notsvg/>") = false
  /\ render_svg working "<notsvg/>" None None emptyWorld =
       (Thrown (Error "Invalid SVG: Root element must be 'svg', found 'notsvg'"),
        emptyWorld).
Proof.
  split; [reflexivity|].
  destruct (render_rejects_invalid_svg working "<notsvg/>" None None emptyWorld
              eq_refl) as (H & _).
  exact H.
Defined.


(** The same theorem on a source the parser gives up on: validate_svg
    answers with a success envelope that carries the parsing error. *)
Example validate_svg_reports_parser_failure :
  XMLParser_parse failing EmptyString "<broken" = Thrown boom
  /\ fst (validate_svg failing "<broken" emptyWorld)
     = Returned (textResponse "Parsing error: boom").
Proof. split; reflexivity. Qed.

Lemma save_icon_unoptimized_witness :
  fs_mkdir working (files emptyWorld)
    (Path.dirname (resolveInCwd working "icon.svg")) = Returned tt
  /\ fs_writeFile working (files emptyWorld)
       (resolveInCwd working "icon.svg") "<svg/>" = Returned tt
  /\ fst (save_svg working "<svg/>" "icon" false emptyWorld)
     = Returned (textResponse "/srv/app/icon.svg")
  /\ files (snd (save_svg working "<svg/>" "icon" false emptyWorld))
       !! "/srv/app/icon.svg" = Some "<svg/>".
Proof.
  split; [reflexivity|]. split; [reflexivity|].
  destruct (save_icon_unoptimized working "<svg/>" emptyWorld eq_refl eq_refl)
    as (Hresult & Hfile & _).
  split; [exact Hresult|exact Hfile].
Defined.

Lemma data_uri_decodes_to_buffer_witness :
  Utf16.wellFormed (Utf16.ofAscii "<svg/>") = true
  /\ exists payload : string,
       OnText.svg_to_data_uri (Utf16.ofAscii "<svg/>") emptyWorld =
         (Returned (textResponse ("data:image/svg+xml;base64," +:+ payload)),
          emptyWorld)
       /\ Base64.decode payload ≫= Utf16.toString
          = Some (Utf16.ofAscii "<svg/>").
Proof.
  split; [reflexivity|].
  destruct (data_uri_decodes_to_buffer (Utf16.ofAscii "<svg/>") emptyWorld)
    as (payload & Htext & _ & _ & _ & Hback).
  exists payload. split; [exact Htext|exact (Hback eq_refl)].
Defined.

Lemma request_validation_witness :
  In (save_svg_tool working) (tools working)
  /\ In (MkParam "filename" TString Required) (inputSchema (save_svg_tool working))
  /\ ({[ "svg_code" := JStr "<svg/>" ]} : gmap string JsValue) !! "filename" = None
  /\ (exists issues,
       dispatch working "save_svg" {[ "svg_code" := JStr "<svg/>" ]} emptyWorld
       = (inl (InvalidArguments issues), emptyWorld)
       /\ In (MissingParameter "filename") issues)
  /\ ({[ "svg_code" := JStr "<svg/>" ]} : gmap string JsValue) !! "component_name" = None
  /\ dispatch working "svg_to_react" {[ "svg_code" := JStr "<svg/>" ]} emptyWorld
     = (inr (fst (svg_to_react working "<svg/>" "SvgComponent" emptyWorld)),
        snd (svg_to_react working "<svg/>" "SvgComponent" emptyWorld)).
Proof.
  destruct (request_validation working {[ "svg_code" := JStr "<svg/>" ]} emptyWorld)
    as (Hmissing & _ & _ & _ & Hname).
  split; [right; left; reflexivity|].
  split; [right; left; reflexivity|].
  split; [reflexivity|].
  split.
  { apply (Hmissing (save_svg_tool working) (MkParam "filename" TString Required)).
    - right; left; reflexivity.
    - right; left; reflexivity.
    - reflexivity.
    - reflexivity. }
  split; [reflexivity|].
  destruct (Hname "<svg/>" eq_refl eq_refl) as (Hreact & _). exact Hreact.
Defined.

Lemma save_falls_back_on_minifier_failure_witness :
  svgo_optimize minifierDown "<svg/>" savePlugins = Thrown boom
  /\ fs_mkdir minifierDown (files emptyWorld)
       (Path.dirname (resolveInCwd minifierDown (withSvgExtension "logo.svg")))
     = Returned tt
  /\ fs_writeFile minifierDown (files emptyWorld)
       (resolveInCwd minifierDown (withSvgExtension "logo.svg")) "<svg/>"
     = Returned tt
  /\ fst (save_svg minifierDown "<svg/>" "logo.svg" true emptyWorld)
     = Returned (textResponse "/srv/app/logo.svg")
  /\ files (snd (save_svg minifierDown "<svg/>" "logo.svg" true emptyWorld))
       !! "/srv/app/logo.svg" = Some "<svg/>".
Proof.
  split; [reflexivity|]. split; [reflexivity|]. split; [reflexivity|].
  destruct (save_falls_back_on_minifier_failure minifierDown "<svg/>" "logo.svg"
              boom emptyWorld eq_refl) as (_ & _ & Hsaved).
  destruct (Hsaved eq_refl eq_refl) as (Hresult & Hfile & _).
  split; [exact Hresult|exact Hfile].
Defined.

End Runs.

(** * More about the walk over the tags *)

(** Induction over a value tree that reaches the items of arrays and the
    values of properties. *)
Lemma JsValue_nested_ind (P : JsValue -> Prop) :
  P JNull -> (forall b, P (JBool b)) -> (forall n, P (JNum n)) ->
  (forall s, P (JStr s)) ->
  (forall items, Forall P items -> P (JArr items)) ->
  (forall props, Forall (fun kv => P (snd kv)) props -> P (JObj props)) ->
  forall v, P v.
Proof.
  intros Hnull Hbool Hnum Hstr Harr Hobj.
  fix IH 1. intros [| b | n | s | items | props].
  - exact Hnull.
  - apply Hbool.
  - apply Hnum.
  - apply Hstr.
  - apply Harr. induction items as [|v items IHitems]; constructor.
    + apply IH.
    + exact IHitems.
  - apply Hobj. induction props as [|[k v] props IHprops]; constructor.
    + apply IH.
    + exact IHprops.
Qed.

Module JsFacts.
Import Js JsText.

(** With an accumulator, the scan gives what it gives without one, or
    the accumulator when it finds no colon. *)
Lemma afterLastColon_acc (s : string) (acc : option string) :
  afterLastColon s acc =
    match afterLastColon s None with
    | Some rest => Some rest
    | None => acc
    end.
Proof.
  revert acc. induction s as [|c s IH]; intros acc.
  - reflexivity.
  - cbn [afterLastColon]. destruct (lineTerminatorAt (String c s)); [reflexivity|].
    destruct (bool_decide (c = ":"%char)).
    + rewrite (IH (Some s)). destruct (afterLastColon s None); reflexivity.
    + apply IH.
Qed.

(** What is left after the match holds no further match. *)
Lemma afterLastColon_settled (s rest : string) :
  afterLastColon s None = Some rest -> afterLastColon rest None = None.
Proof.
  induction s as [|c s IH]; [discriminate|].
  cbn [afterLastColon]. destruct (lineTerminatorAt (String c s)); [discriminate|].
  destruct (bool_decide (c = ":"%char)).
  - rewrite afterLastColon_acc.
    destruct (afterLastColon s None) as [r|] eqn:Hs.
    + intros Heq. apply IH. exact Heq.
    + intros Heq. inversion Heq; subst. exact Hs.
  - exact IH.
Qed.

Lemma afterLastColon_no_colon (s : string) (acc : option string) :
  (forall c, In c (list_ascii_of_string s) -> c <> ":"%char) ->
  afterLastColon s acc = acc.
Proof.
  revert acc. induction s as [|c s IH]; intros acc Hno; [reflexivity|].
  cbn [afterLastColon]. destruct (lineTerminatorAt (String c s)); [reflexivity|].
  rewrite bool_decide_eq_false_2 by (apply Hno; left; reflexivity).
  apply IH. intros d Hd. apply Hno. right. exact Hd.
Qed.

Lemma stripNamespace_no_colon (s : string) :
  (forall c, In c (list_ascii_of_string s) -> c <> ":"%char) ->
  stripNamespace s = s.
Proof.
  intros Hno. unfold stripNamespace.
  rewrite afterLastColon_no_colon by exact Hno. reflexivity.
Qed.

(** Whether a line terminator starts a text that is not empty does not
    depend on a colon put after it. *)
Lemma lineTerminatorAt_before_colon (s name : string) :
  s <> EmptyString ->
  lineTerminatorAt (s +:+ String ":" name) = lineTerminatorAt s.
Proof.
  intros Hs. destruct s as [|c [|c1 [|c2 s]]]; [congruence| | |reflexivity].
  - change (String c EmptyString +:+ String ":" name)
      with (String c (String ":" name)).
    cbn [lineTerminatorAt].
    destruct (bool_decide (c = "010"%char) || bool_decide (c = "013"%char));
      [reflexivity|].
    destruct (bool_decide (c = "226"%char)); [|reflexivity].
    destruct name; reflexivity.
  - change (String c (String c1 EmptyString) +:+ String ":" name)
      with (String c (String c1 (String ":" name))).
    cbn [lineTerminatorAt].
    destruct (bool_decide (c = "010"%char) || bool_decide (c = "013"%char));
      [reflexivity|].
    destruct (bool_decide (c = "226"%char)); [|reflexivity].
    destruct (bool_decide (c1 = "128"%char)); reflexivity.
Qed.

Lemma afterLastColon_qualified (prefix name : string) (acc : option string) :
  hasLineBreak prefix = false ->
  (forall c, In c (list_ascii_of_string name) -> c <> ":"%char) ->
  afterLastColon (prefix +:+ String ":" name) acc = Some name.
Proof.
  intros Hprefix Hname. revert acc.
  induction prefix as [|c prefix IH]; intros acc.
  - change (EmptyString +:+ String ":" name) with (String ":" name).
    cbn [afterLastColon].
    replace (lineTerminatorAt (String ":" name)) with false
      by (destruct name; reflexivity).
    rewrite bool_decide_eq_true_2 by reflexivity.
    apply afterLastColon_no_colon, Hname.
  - cbn [hasLineBreak] in Hprefix.
    apply orb_false_elim in Hprefix as [Hhere Hrest].
    pose proof (lineTerminatorAt_before_colon (String c prefix) name) as Hline.
    rewrite Hhere in Hline.
    change (String c prefix +:+ String ":" name)
      with (String c (prefix +:+ String ":" name)) in *.
    cbn [afterLastColon]. rewrite Hline by discriminate.
    destruct (bool_decide (c = ":"%char)); apply IH, Hrest.
Qed.

Lemma string_of_uint_digits (d : Decimal.uint) (c : ascii) :
  In c (list_ascii_of_string (NilEmpty.string_of_uint d)) -> isDigit c.
Proof.
  unfold isDigit.
  induction d; cbn [NilEmpty.string_of_uint list_ascii_of_string];
    intros Hin; try (destruct Hin as [<-|Hin]; [|exact (IHd Hin)]);
    cbn; tauto.
Qed.

Lemma indexKey_digits (i : nat) (c : ascii) :
  In c (list_ascii_of_string (indexKey i)) -> isDigit c.
Proof. apply string_of_uint_digits. Qed.

Lemma digit_not (c d : ascii) :
  isDigit c -> ~ isDigit d -> c <> d.
Proof. intros Hc Hd ->. exact (Hd Hc). Qed.

Ltac not_a_digit :=
  unfold isDigit; cbn; intros Hfalse;
  repeat (destruct Hfalse as [Hfalse|Hfalse]; [discriminate Hfalse|]);
  exact Hfalse.

(** An index key is kept by the prefix strip and is none of the names
    the walk treats apart. *)
Lemma indexKey_plain (i : nat) :
  stripNamespace (indexKey i) = indexKey i
  /\ indexKey i <> "svg"
  /\ startsWith "@_" (indexKey i) = false
  /\ indexKey i <> "#text".
Proof.
  pose proof (indexKey_digits i) as Hdigits.
  split; [|split; [|split]].
  - apply stripNamespace_no_colon. intros c Hc.
    apply (digit_not c ":"%char (Hdigits c Hc)). not_a_digit.
  - intros Heq. rewrite Heq in Hdigits.
    assert (Hs : isDigit "s"%char) by (apply Hdigits; left; reflexivity).
    revert Hs. not_a_digit.
  - destruct (indexKey i) as [|c rest]; [reflexivity|].
    cbn [startsWith].
    rewrite bool_decide_eq_false_2; [reflexivity|].
    intros Heq. assert (Hat : isDigit c) by (apply Hdigits; left; reflexivity).
    rewrite <- Heq in Hat. revert Hat. not_a_digit.
  - intros Heq. rewrite Heq in Hdigits.
    assert (Hs : isDigit "#"%char) by (apply Hdigits; left; reflexivity).
    revert Hs. not_a_digit.
Qed.

End JsFacts.

Section WalkFacts.

Variable env : Collaborators.

Lemma checkTags_array (items : list JsValue) :
  checkTags env (JArr items) = walkItems env 0 items.
Proof. reflexivity. Qed.

Lemma checkTags_cons (key : string) (v : JsValue) (props : list (string * JsValue)) :
  checkTags env (JObj ((key, v) :: props)) =
    (if typeof_object v then tagWarning env key ++ checkTags env v else [])
    ++ checkTags env (JObj props).
Proof. reflexivity. Qed.


Lemma tagWarning_inv (key w : string) :
  In w (tagWarning env key) ->
  w = warningFor (Js.stripNamespace key)
  /\ Js.stripNamespace key <> "svg"
  /\ (Js.stripNamespace key ∉ SVG_TAGS env)
  /\ Js.startsWith "@_" key = false
  /\ key <> "#text".
Proof.
  unfold tagWarning, Js.str_eqb.
  destruct (bool_decide_reflect (Js.stripNamespace key = "svg")); [intros []|].
  destruct (bool_decide_reflect (Js.stripNamespace key ∈ SVG_TAGS env));
    [intros []|].
  destruct (Js.startsWith "@_" key); [intros []|].
  destruct (bool_decide_reflect (key = "#text")); [intros []|].
  cbn. intros [<-|[]]. repeat split; assumption.
Qed.

Lemma tagWarning_fires (key : string) :
  Js.stripNamespace key <> "svg" ->
  Js.stripNamespace key ∉ SVG_TAGS env ->
  Js.startsWith "@_" key = false ->
  key <> "#text" ->
  tagWarning env key = [warningFor (Js.stripNamespace key)].
Proof.
  intros Hsvg Htags Hattr Htext. unfold tagWarning, Js.str_eqb.
  rewrite !bool_decide_eq_false_2 by assumption. rewrite Hattr. reflexivity.
Qed.

(** Whatever the walk pushes was pushed for some key. *)
Lemma checkTags_pushed (obj : JsValue) (w : string) :
  In w (checkTags env obj) -> exists key, In w (tagWarning env key).
Proof.
  induction obj as [| b | n | s | items IH | props IH] using JsValue_nested_ind;
    try (intros []).
  - rewrite checkTags_array. generalize 0%nat.
    induction IH as [|v items Hv _ IHitems]; intros i; [intros []|].
    cbn [walkItems]. intros Hin. apply in_app_or in Hin as [Hin|Hin].
    + destruct (typeof_object v); [|destruct Hin].
      apply in_app_or in Hin as [Hin|Hin]; [eauto|auto].
    + exact (IHitems (S i) Hin).
  - induction IH as [|[k v] props Hv _ IHprops]; [intros []|].
    rewrite checkTags_cons. intros Hin. apply in_app_or in Hin as [Hin|Hin].
    + destruct (typeof_object v); [|destruct Hin].
      apply in_app_or in Hin as [Hin|Hin]; [eauto|auto].
    + exact (IHprops Hin).
Qed.

(** An item of type object is checked under its index. *)
Lemma walkItems_index (items : list JsValue) (start i : nat) (v : JsValue) :
  items !! i = Some v -> typeof_object v = true ->
  incl (tagWarning env (Js.indexKey (start + i))) (walkItems env start items).
Proof.
  revert start i. induction items as [|x items IH]; intros start i Hi Hobj.
  - discriminate Hi.
  - cbn [walkItems]. destruct i as [|i].
    + inversion Hi; subst. rewrite Hobj, Nat.add_0_r.
      apply incl_appl, incl_appl, incl_refl.
    + apply incl_appr. replace (start + S i)%nat with (S start + i)%nat by lia.
      apply IH; assumption.
Qed.

Lemma walkItems_item (items : list JsValue) (start : nat) (v : JsValue) :
  In v items -> typeof_object v = true ->
  incl (checkTags env v) (walkItems env start items).
Proof.
  revert start. induction items as [|x items IH]; intros start Hin Hobj;
    [destruct Hin|].
  cbn [walkItems]. destruct Hin as [->|Hin].
  - rewrite Hobj. apply incl_appl, incl_appr, incl_refl.
  - apply incl_appr, IH; assumption.
Qed.

(** What the walk finds below a value it reaches, it finds. *)
Lemma checkTags_reaches (obj target : JsValue) :
  Reaches obj target -> incl (checkTags env target) (checkTags env obj).
Proof.
  induction 1 as [v|props key v target Hin Hobj _ IH|items v target Hin Hobj _ IH].
  - apply incl_refl.
  - eapply incl_tran; [exact IH|].
    eapply incl_tran; [|apply (checkTags_object_property env props key v Hin Hobj)].
    apply incl_appr, incl_refl.
  - eapply incl_tran; [exact IH|].
    rewrite checkTags_array. apply walkItems_item; assumption.
Qed.

Lemma checkTags_primitives (props : list (string * JsValue)) :
  (forall key v, In (key, v) props -> typeof_object v = false) ->
  checkTags env (JObj props) = [].
Proof.
  induction props as [|[k v] props IH]; intros Hprim; [reflexivity|].
  rewrite checkTags_cons, (Hprim k v) by (left; reflexivity).
  apply IH. intros key x Hin. apply (Hprim key x). right. exact Hin.
Qed.

(** The errors of a verdict: none when valid, one when not. *)
Lemma errors_count (svgCode : string) :
  length (errors (validateSvgContent env svgCode)) =
    if valid (validateSvgContent env svgCode) then 0%nat else 1%nat.
Proof.
  unfold validateSvgContent.
  destruct (XMLValidator_validate env svgCode); [|reflexivity].
  destruct (XMLParser_parse env EmptyString svgCode) as [jsonObj|e];
    [|reflexivity].
  cbn [errors valid]. unfold rootErrors.
  destruct (rootRejected (findRootTag (map fst jsonObj))); reflexivity.
Qed.

(** X1.  An element that the parser hands over as an object, at any
    depth, whose stripped name is neither svg nor in the vocabulary, is
    named in a warning of the verdict. *)
Theorem unknown_element_is_reported (svgCode key : string)
    (jsonObj : list (string * JsValue)) :
  XMLValidator_validate env svgCode = VTrue ->
  XMLParser_parse env EmptyString svgCode = Returned jsonObj ->
  ObjectProperty key (JObj jsonObj) ->
  Js.stripNamespace key <> "svg" ->
  Js.stripNamespace key ∉ SVG_TAGS env ->
  Js.startsWith "@_" key = false ->
  key <> "#text" ->
  In ("Non-standard SVG tag found: '" +:+ Js.stripNamespace key +:+ "'")
     (warnings (validateSvgContent env svgCode)).
Proof.
  intros Hv Hp Hkey Hsvg Htags Hattr Htext.
  unfold validateSvgContent. rewrite Hv, Hp. cbn [warnings].
  apply (checkTags_visits_objects env key (JObj jsonObj) Hkey).
  rewrite tagWarning_fires by assumption. left. reflexivity.
Qed.

(** X2.  Every warning of a verdict has the form of the non-standard-tag
    message and names a tag that is not svg and not in the vocabulary:
    the validator never warns about a standard tag. *)
Theorem warnings_name_unknown_tags (svgCode w : string) :
  In w (warnings (validateSvgContent env svgCode)) ->
  exists tagName,
    w = "Non-standard SVG tag found: '" +:+ tagName +:+ "'"
    /\ tagName <> "svg"
    /\ (tagName ∉ SVG_TAGS env).
Proof.
  unfold validateSvgContent.
  destruct (XMLValidator_validate env svgCode); [|intros []].
  destruct (XMLParser_parse env EmptyString svgCode) as [jsonObj|e];
    [|intros []].
  cbn [warnings]. intros Hin.
  destruct (checkTags_pushed _ _ Hin) as [key Hkey].
  destruct (tagWarning_inv key w Hkey) as (-> & Hsvg & Htags & _).
  exists (Js.stripNamespace key). repeat split; assumption.
Qed.


(** X4.  When the parsed document is an svg root alone (no XML
    declaration, no second top-level element) and that root holds only
    attributes, text and elements without attributes or children,
    however many and whatever their names, the verdict is valid with no
    error and no warning. *)
Theorem primitive_children_raise_nothing (svgCode root : string)
    (props : list (string * JsValue)) :
  XMLValidator_validate env svgCode = VTrue ->
  XMLParser_parse env EmptyString svgCode = Returned [(root, JObj props)] ->
  Js.stripNamespace root = "svg" ->
  (forall key v, In (key, v) props -> typeof_object v = false) ->
  validateSvgContent env svgCode =
    {| valid := true; errors := []; warnings := [] |}.
Proof.
  intros Hv Hp Hroot Hprim. unfold validateSvgContent. rewrite Hv, Hp.
  assert (Hne : root <> "?xml").
  { intros ->. discriminate Hroot. }
  assert (Hnonempty : root <> EmptyString).
  { intros ->. discriminate Hroot. }
  cbn [map fst]. rewrite (findRootTag_first root [] Hne).
  unfold rootErrors, rootRejected, Js.str_eqb.
  destruct root as [|c root]; [congruence|].
  rewrite Hroot. cbn [negb bool_decide]. 
  rewrite checkTags_cons, (checkTags_primitives props Hprim).
  cbn. unfold tagWarning, Js.str_eqb. rewrite Hroot. reflexivity.
Qed.

(** X5.  When repeated elements arrive as an array, each item of type
    object is checked under its index: unless the vocabulary holds that
    number, the verdict warns about a tag named by the index. *)
Theorem array_items_are_reported_by_index (svgCode : string)
    (jsonObj : list (string * JsValue)) (items : list JsValue)
    (i : nat) (v : JsValue) :
  XMLValidator_validate env svgCode = VTrue ->
  XMLParser_parse env EmptyString svgCode = Returned jsonObj ->
  Reaches (JObj jsonObj) (JArr items) ->
  items !! i = Some v ->
  typeof_object v = true ->
  Js.indexKey i ∉ SVG_TAGS env ->
  In ("Non-standard SVG tag found: '" +:+ Js.indexKey i +:+ "'")
     (warnings (validateSvgContent env svgCode)).
Proof.
  intros Hv Hp Hreach Hitem Hobj Htags.
  unfold validateSvgContent. rewrite Hv, Hp. cbn [warnings].
  apply (checkTags_reaches _ _ Hreach). rewrite checkTags_array.
  apply (walkItems_index items 0 i v Hitem Hobj). cbn [Nat.add].
  destruct (JsFacts.indexKey_plain i) as (Hstrip & Hsvg & Hattr & Htext).
  rewrite tagWarning_fires; rewrite ?Hstrip; try assumption.
  left. reflexivity.
Qed.

(** X6.  A verdict carries no error when valid and exactly one when
    not: the syntax error, the parsing error and the root error exclude
    one another. *)
Theorem verdict_has_at_most_one_error (svgCode : string) :
  length (errors (validateSvgContent env svgCode)) =
    (if valid (validateSvgContent env svgCode) then 0%nat else 1%nat)
  /\ (length (errors (validateSvgContent env svgCode)) <= 1)%nat.
Proof.
  pose proof (errors_count svgCode) as Hcount. split; [exact Hcount|].
  rewrite Hcount. destruct (valid (validateSvgContent env svgCode)); lia.
Qed.

(** X7.  The validator without the tag walk and the one with it agree on
    validity and on the errors; the former never warns. *)
Theorem variants_agree_on_errors (svgCode : string) :
  valid (SseVariant.validateSvgContent env svgCode)
    = valid (validateSvgContent env svgCode)
  /\ errors (SseVariant.validateSvgContent env svgCode)
     = errors (validateSvgContent env svgCode)
  /\ warnings (SseVariant.validateSvgContent env svgCode) = [].
Proof.
  unfold SseVariant.validateSvgContent, validateSvgContent.
  destruct (XMLValidator_validate env svgCode); [|repeat split].
  destruct (XMLParser_parse env EmptyString svgCode); repeat split.
Qed.

End WalkFacts.

(** X8.  Stripping the prefix twice is stripping it once: what is left
    after the last colon of the first line has no prefix left. *)
Theorem stripNamespace_idempotent (key : string) :
  Js.stripNamespace (Js.stripNamespace key) = Js.stripNamespace key.
Proof.
  unfold Js.stripNamespace at 2 3.
  destruct (Js.afterLastColon key None) as [rest|] eqn:Hkey.
  - unfold Js.stripNamespace.
    rewrite (JsFacts.afterLastColon_settled key rest Hkey). reflexivity.
  - unfold Js.stripNamespace. rewrite Hkey. reflexivity.
Qed.

(** X9.  A name qualified by a prefix in which no line terminator (LF,
    CR, U+2028, U+2029) starts is cut down to what follows its last colon,
    however many colons and whatever other characters the prefix holds. *)
Theorem stripNamespace_qualified (prefix name : string) :
  JsText.hasLineBreak prefix = false ->
  (forall c, In c (list_ascii_of_string name) -> c <> ":"%char) ->
  Js.stripNamespace (prefix +:+ ":" +:+ name) = name.
Proof.
  intros Hprefix Hname. unfold Js.stripNamespace.
  change (prefix +:+ ":" +:+ name) with (prefix +:+ String ":" name).
  rewrite (JsFacts.afterLastColon_qualified prefix name None Hprefix Hname).
  reflexivity.
Qed.

(** * More about the handlers *)

Module TextFacts.

Lemma toLowerCase_app (a b : string) :
  Js.toLowerCase (a +:+ b) = Js.toLowerCase a +:+ Js.toLowerCase b.
Proof.
  induction a as [|c a IH]; [reflexivity|].
  change (String c a +:+ b) with (String c (a +:+ b)).
  cbn [Js.toLowerCase]. rewrite IH. reflexivity.
Qed.

Lemma endsWith_app_r (x a b : string) :
  Js.endsWith x b = true -> Js.endsWith x (a +:+ b) = true.
Proof.
  intros Hb. induction a as [|c a IH]; [exact Hb|].
  change (String c a +:+ b) with (String c (a +:+ b)).
  cbn [Js.endsWith]. rewrite IH. apply orb_true_r.
Qed.

Lemma find_is_head_of_filter {A} (f : A -> bool) (l : list A) :
  List.find f l = match List.filter f l with x :: _ => Some x | [] => None end.
Proof.
  induction l as [|x l IH]; [reflexivity|].
  cbn [List.find List.filter]. destruct (f x); [reflexivity|exact IH].
Qed.

Lemma length_list_byte_of_string (s : string) :
  length (String.list_byte_of_string s) = String.length s.
Proof.
  unfold String.list_byte_of_string. rewrite List.length_map.
  induction s as [|c s IH]; [reflexivity|].
  cbn [String.list_ascii_of_string String.length length]. rewrite IH.
  reflexivity.
Qed.

Lemma encode_length (bs : list Byte.byte) :
  String.length (Base64.encode bs) = (4 * ((length bs + 2) / 3))%nat.
Proof.
  induction bs as [|a|a b|a b c rest IH] using Base64Facts.triples_ind;
    try reflexivity.
  cbn [Base64.encode String.length length]. rewrite IH.
  replace (S (S (S (length rest))) + 2)%nat with (length rest + 2 + 1 * 3)%nat
    by lia.
  rewrite Nat.div_add by lia. lia.
Qed.

End TextFacts.

Module ExtensionFacts.
Import Path.

Lemma not_slash_of_lower (c d : ascii) :
  Js.lower_ascii c = d -> d <> slash -> c <> slash.
Proof. intros <- Hd ->. apply Hd. reflexivity. Qed.

Lemma withSvgExtension_has_extension (filename : string) :
  Js.endsWith ".svg" (Js.toLowerCase (withSvgExtension filename)) = true.
Proof.
  unfold withSvgExtension.
  destruct (Js.endsWith ".svg" (Js.toLowerCase filename)) eqn:Hhas; cbn [negb].
  - exact Hhas.
  - rewrite TextFacts.toLowerCase_app. apply PathFacts.endsWith_app.
Qed.

(** A name that is the extension and nothing else is one segment. *)
Lemma bare_extension_one_segment (g : string) :
  Js.toLowerCase g = ".svg" -> segments g = [g].
Proof.
  destruct g as [|c0 [|c1 [|c2 [|c3 [|c4 g]]]]]; try discriminate.
  cbn [Js.toLowerCase]. intros Heq. inversion Heq as [[H0 H1 H2 H3]].
  cbn [segments].
  rewrite (bool_decide_eq_false_2 (c3 = slash))
    by (apply (not_slash_of_lower _ _ H3); discriminate).
  rewrite (bool_decide_eq_false_2 (c2 = slash))
    by (apply (not_slash_of_lower _ _ H2); discriminate).
  rewrite (bool_decide_eq_false_2 (c1 = slash))
    by (apply (not_slash_of_lower _ _ H1); discriminate).
  rewrite (bool_decide_eq_false_2 (c0 = slash))
    by (apply (not_slash_of_lower _ _ H0); discriminate).
  reflexivity.
Qed.

(** The extension of a name lies in its last segment. *)
Lemma extension_in_last_segment (g : string) :
  Js.endsWith ".svg" (Js.toLowerCase g) = true ->
  exists init last,
    segments g = init ++ [last]
    /\ Js.endsWith ".svg" (Js.toLowerCase last) = true.
Proof.
  induction g as [|c g IH]; [discriminate|].
  cbn [Js.toLowerCase Js.endsWith]. intros Hends.
  apply orb_prop in Hends as [Hwhole|Htail].
  - apply bool_decide_eq_true_1 in Hwhole.
    exists [], (String c g). split.
    + apply bare_extension_one_segment. exact Hwhole.
    + cbn [Js.toLowerCase]. rewrite Hwhole. reflexivity.
  - destruct (IH Htail) as (init & last & Hseg & Hlast).
    cbn [segments]. rewrite Hseg.
    destruct (bool_decide (c = slash)).
    + exists (EmptyString :: init), last. split; [reflexivity|exact Hlast].
    + destruct init as [|i init].
      * exists [], (String c last). split; [reflexivity|].
        cbn [Js.toLowerCase Js.endsWith]. rewrite Hlast. apply orb_true_r.
      * exists (String c i :: init), last. split; [reflexivity|exact Hlast].
Qed.

Lemma extension_not_dots (last : string) :
  Js.endsWith ".svg" (Js.toLowerCase last) = true ->
  last <> EmptyString /\ last <> "." /\ last <> "..".
Proof. intros Hends. repeat split; intros ->; discriminate Hends. Qed.

(** What the loop of resolve has built from [cwd] and a name that is not
    empty: a path whose segments end with those of the name. *)
Lemma resolved_segments (cwd g : string) :
  g <> EmptyString ->
  exists path prefix absolute,
    fold_left resolveStep (rev [cwd; g] ++ [cwd]) (EmptyString, false)
      = (path, absolute)
    /\ segments path = prefix ++ segments g ++ [EmptyString].
Proof.
  intros Hg.
  change (fold_left resolveStep (rev [cwd; g] ++ [cwd]) (EmptyString, false))
    with (resolveStep (resolveStep (resolveStep (EmptyString, false) g) cwd) cwd).
  assert (H1 : resolveStep (EmptyString, false) g
               = (g +:+ String slash EmptyString, isAbsolute g)).
  { unfold resolveStep, Js.str_eqb.
    rewrite bool_decide_eq_false_2 by assumption. reflexivity. }
  assert (Hlast : segments (g +:+ String slash EmptyString)
                  = segments g ++ [EmptyString]).
  { rewrite PathFacts.segments_app_slash. reflexivity. }
  rewrite H1. unfold resolveStep, Js.str_eqb.
  destruct (isAbsolute g).
  { exists (g +:+ String slash EmptyString), [], true.
    split; [reflexivity|exact Hlast]. }
  destruct (bool_decide_reflect (cwd = EmptyString)) as [->|Hcwd].
  - exists (g +:+ String slash EmptyString), [], false.
    split; [reflexivity|exact Hlast].
  - destruct (isAbsolute cwd).
    + exists (cwd +:+ String slash (g +:+ String slash EmptyString)),
             (segments cwd), true.
      split; [reflexivity|].
      rewrite PathFacts.segments_app_slash, Hlast. reflexivity.
    + exists (cwd +:+ String slash
                (cwd +:+ String slash (g +:+ String slash EmptyString))),
             (segments cwd ++ segments cwd), false.
      split; [reflexivity|].
      rewrite !PathFacts.segments_app_slash, <- !app_assoc. reflexivity.
Qed.

(** Resolving a name with the extension gives a path with the extension. *)
Lemma resolve_keeps_extension (cwd g : string) :
  Js.endsWith ".svg" (Js.toLowerCase g) = true ->
  Js.endsWith ".svg" (Js.toLowerCase (resolve cwd [cwd; g])) = true.
Proof.
  intros Hends.
  assert (Hg : g <> EmptyString) by (intros ->; discriminate Hends).
  destruct (extension_in_last_segment g Hends) as (init & last & Hseg & Hlast).
  destruct (extension_not_dots last Hlast) as (Hne & Hdot & Hdots).
  destruct (resolved_segments cwd g Hg) as (path & prefix & absolute & Hfold & Hpath).
  unfold resolve. rewrite Hfold.
  assert (Hshape : segments path = (prefix ++ init) ++ [last; EmptyString]).
  { rewrite Hpath, Hseg, <- !app_assoc. reflexivity. }
  destruct (PathFacts.normalizeString_plain_last last Hne Hdot Hdots
              path (prefix ++ init) (negb absolute) Hshape) as [p Hp].
  cbv zeta. rewrite Hp.
  assert (Hkept : Js.endsWith ".svg" (Js.toLowerCase (p +:+ last)) = true).
  { rewrite TextFacts.toLowerCase_app.
    apply TextFacts.endsWith_app_r. exact Hlast. }
  destruct absolute.
  - change ("/" +:+ p +:+ last) with (String slash (p +:+ last)).
    cbn [Js.toLowerCase Js.endsWith]. rewrite Hkept. apply orb_true_r.
  - unfold Js.str_eqb. rewrite bool_decide_eq_false_2; [exact Hkept|].
    intros Hnil. apply Hne. exact (PathFacts.append_empty_inv p last Hnil).
Qed.

End ExtensionFacts.

Section HandlerCoverage.

Variable env : Collaborators.


(** X22.  Whatever file name save_svg is given, with directories or
    without, the path it resolves and writes to ends in the svg
    extension, letter case apart. *)
Theorem saved_path_has_svg_extension (filename : string) :
  Js.endsWith ".svg"
    (Js.toLowerCase (resolveInCwd env (withSvgExtension filename))) = true.
Proof.
  unfold resolveInCwd. apply ExtensionFacts.resolve_keeps_extension.
  apply ExtensionFacts.withSvgExtension_has_extension.
Qed.

(** X11.  Only save_svg and svg_to_pdf write files: the eight other
    handlers leave every file as it was, whatever the libraries do. *)
Theorem other_handlers_write_no_file (svg_code name : string)
    (width height : option Z) (w : World) :
  files (snd (render_svg env svg_code width height w)) = files w
  /\ files (snd (optimize_svg env svg_code w)) = files w
  /\ files (snd (format_svg env svg_code w)) = files w
  /\ files (snd (svg_to_react env svg_code name w)) = files w
  /\ files (snd (svg_to_react_native env svg_code name w)) = files w
  /\ files (snd (svg_to_data_uri svg_code w)) = files w
  /\ files (snd (validate_svg env svg_code w)) = files w
  /\ files (snd (get_svg_metadata env svg_code w)) = files w.
Proof.
  split.
  { unfold render_svg. destruct (valid (validateSvgContent env svg_code));
      [|reflexivity]. cbn [negb]. unfold tryCatch, bind, call.
    destruct (sharp_png env _ _); reflexivity. }
  split.
  { unfold optimize_svg, tryCatch, bind, optimize, call.
    destruct (svgo_optimize env _ _); reflexivity. }
  split.
  { unfold format_svg, tryCatch, bind, call.
    destruct (xml_format env _); reflexivity. }
  split.
  { unfold svg_to_react, tryCatch, bind, transform, call.
    destruct (svgr_transform env _ _ _); reflexivity. }
  split.
  { unfold svg_to_react_native, tryCatch, bind, transform, call.
    destruct (svgr_transform env _ _ _); reflexivity. }
  split; [reflexivity|]. split; [reflexivity|].
  unfold get_svg_metadata, tryCatch, bind.
  destruct (XMLParser_parse env "@_" svg_code) as [jsonObj|e]; [|reflexivity].
  match goal with
  | |- context [if negb (truthy ?root) then throw _ else _] =>
      destruct (truthy root)
  end; reflexivity.
Qed.

(** X12.  save_svg touches at most one file, the one at the resolved
    path: every other path holds afterwards what it held before. *)
Theorem save_leaves_other_files (svg_code filename other : string)
    (shouldOptimize : bool) (w : World) :
  other <> resolveInCwd env (withSvgExtension filename) ->
  files (snd (save_svg env svg_code filename shouldOptimize w)) !! other
  = files w !! other.
Proof.
  intros Hother.
  unfold save_svg, tryCatch, bind, ret, mkdir_recursive, optimize,
    console_warn, call, writeFile.
  destruct shouldOptimize;
    [destruct (svgo_optimize env svg_code savePlugins)|];
    cbn [files record];
    (destruct (fs_mkdir env (files w) _) as [[]|?]; [|reflexivity]);
    cbn [files record];
    (destruct (fs_writeFile env (files w) _ _) as [[]|?]; [|reflexivity]);
    cbn [snd files store record];
    apply lookup_insert_ne; congruence.
Qed.

(** X13.  A success envelope from save_svg carries the resolved path,
    and the file at that path then holds the output of the minifier
    when optimization was asked for and worked, the source otherwise. *)
Theorem save_success_means_file_written (svg_code filename : string)
    (shouldOptimize : bool) (w : World) (r : Response) :
  fst (save_svg env svg_code filename shouldOptimize w) = Returned r ->
  isError r = false ->
  let finalPath := resolveInCwd env (withSvgExtension filename) in
  r = textResponse finalPath
  /\ files (snd (save_svg env svg_code filename shouldOptimize w)) !! finalPath
     = Some (match shouldOptimize, svgo_optimize env svg_code savePlugins with
             | true, Returned data => data
             | _, _ => svg_code
             end).
Proof.
  intros Hresult Hok finalPath. subst finalPath. revert Hresult.
  unfold save_svg, tryCatch, bind, ret, mkdir_recursive, optimize,
    console_warn, call, writeFile.
  destruct shouldOptimize;
    [destruct (svgo_optimize env svg_code savePlugins)|];
    cbn [files record];
    (destruct (fs_mkdir env (files w) _) as [[]|?];
       [|cbn [fst]; intros Hr; inversion Hr; subst; discriminate Hok]);
    cbn [files record];
    (destruct (fs_writeFile env (files w) _ _) as [[]|?];
       [|cbn [fst]; intros Hr; inversion Hr; subst; discriminate Hok]);
    cbn [fst snd files store record]; intros Hr; inversion Hr; subst;
    (split; [reflexivity|apply lookup_insert_eq]).
Qed.

(** X14.  When the source is valid and the rasterizer returns, render_svg
    answers with one image item of type image/png whose data decodes to
    the bytes the rasterizer produced; the rasterizer was called once. *)
Theorem render_returns_decodable_png (svg_code : string)
    (width height : option Z) (png : list Byte.byte) (w : World) :
  valid (validateSvgContent env svg_code) = true ->
  sharp_png env (Base64.Buffer_from svg_code) (resizeRequest width height)
    = Returned png ->
  exists data,
    fst (render_svg env svg_code width height w)
      = Returned {| content := [ImageItem data "image/png"]; isError := false |}
    /\ Base64.decode data = Some png
    /\ calls (snd (render_svg env svg_code width height w))
       = calls w ++ [EvRasterize (Base64.Buffer_from svg_code)
                       (resizeRequest width height)].
Proof.
  intros Hvalid Hpng. exists (Base64.encode png).
  unfold render_svg. rewrite Hvalid. cbn [negb].
  unfold tryCatch, bind, call, ret. rewrite Hpng. cbn [fst snd calls record].
  split; [reflexivity|]. split; [apply Base64Facts.decode_encode|reflexivity].
Qed.

(** X15.  render_svg asks for a resize exactly when a width or a height
    is given and is not zero, and then passes both as given; a size of
    zero counts as no size. *)
Theorem render_resizes_only_for_nonzero_size (svg_code : string)
    (width height : option Z) (w : World) :
  valid (validateSvgContent env svg_code) = true ->
  ((width = None \/ width = Some 0) -> (height = None \/ height = Some 0) ->
     calls (snd (render_svg env svg_code width height w))
     = calls w ++ [EvRasterize (Base64.Buffer_from svg_code) None])
  /\ ((exists n, n <> 0 /\ (width = Some n \/ height = Some n)) ->
     calls (snd (render_svg env svg_code width height w))
     = calls w ++ [EvRasterize (Base64.Buffer_from svg_code)
                     (Some (width, height))]).
Proof.
  intros Hvalid.
  assert (Hcalls : calls (snd (render_svg env svg_code width height w))
    = calls w ++ [EvRasterize (Base64.Buffer_from svg_code)
                    (resizeRequest width height)]).
  { unfold render_svg. rewrite Hvalid. cbn [negb].
    unfold tryCatch, bind, call, ret.
    destruct (sharp_png env _ _); reflexivity. }
  rewrite Hcalls. split.
  - intros [->| ->] [->| ->]; reflexivity.
  - intros (n & Hn & [->| ->]); unfold resizeRequest, truthyNumber.
    + rewrite (proj2 (Z.eqb_neq n 0) Hn). reflexivity.
    + rewrite (proj2 (Z.eqb_neq n 0) Hn), orb_true_r. reflexivity.
Qed.

Lemma metadata_from (svg_code : string) (jsonObj : list (string * JsValue))
    (root : option JsValue) (w : World) :
  XMLParser_parse env "@_" svg_code = Returned jsonObj ->
  (if negb (truthy (lookupProp "svg" jsonObj)) then
     match List.filter (fun k => negb (Js.str_eqb k "?xml")) (map fst jsonObj) with
     | k0 :: _ => lookupProp k0 jsonObj
     | [] => lookupProp "svg" jsonObj
     end
   else lookupProp "svg" jsonObj) = root ->
  get_svg_metadata env svg_code w =
    if negb (truthy root) then
      (Returned (errorResponse
         "Error extracting metadata: Could not find SVG root element"), w)
    else
      (Returned (textResponse (JSON_stringify_metadata env
         {| md_width := getProp root "@_width";
            md_height := getProp root "@_height";
            md_viewBox := getProp root "@_viewBox";
            md_title := getProp root "title" |})), w).
Proof.
  intros Hparse Hroot. unfold get_svg_metadata, tryCatch, bind.
  rewrite Hparse, Hroot. destruct (truthy root); reflexivity.
Qed.

(** X16.  When the parsed document has an svg element that carries
    attributes or children, the metadata are the width, height and
    viewBox attributes and the title of that element, wherever it stands
    among the top-level keys. *)
Theorem metadata_read_from_svg_root (svg_code : string)
    (jsonObj props : list (string * JsValue)) (w : World) :
  XMLParser_parse env "@_" svg_code = Returned jsonObj ->
  lookupProp "svg" jsonObj = Some (JObj props) ->
  get_svg_metadata env svg_code w =
    (Returned (textResponse (JSON_stringify_metadata env
       {| md_width := lookupProp "@_width" props;
          md_height := lookupProp "@_height" props;
          md_viewBox := lookupProp "@_viewBox" props;
          md_title := lookupProp "title" props |})), w).
Proof.
  intros Hparse Hsvg.
  rewrite (metadata_from svg_code jsonObj (Some (JObj props)) w Hparse).
  - reflexivity.
  - rewrite Hsvg. reflexivity.
Qed.

(** X17.  Without a usable svg element, the first top-level key other
    than the declaration is taken as root whatever its name: its
    attributes are reported as the metadata. *)
Theorem metadata_falls_back_to_first_element (svg_code first : string)
    (jsonObj props : list (string * JsValue)) (w : World) :
  XMLParser_parse env "@_" svg_code = Returned jsonObj ->
  truthy (lookupProp "svg" jsonObj) = false ->
  findRootTag (map fst jsonObj) = Some first ->
  lookupProp first jsonObj = Some (JObj props) ->
  get_svg_metadata env svg_code w =
    (Returned (textResponse (JSON_stringify_metadata env
       {| md_width := lookupProp "@_width" props;
          md_height := lookupProp "@_height" props;
          md_viewBox := lookupProp "@_viewBox" props;
          md_title := lookupProp "title" props |})), w).
Proof.
  intros Hparse Hsvg Hfirst Hprops.
  rewrite (metadata_from svg_code jsonObj (Some (JObj props)) w Hparse).
  - reflexivity.
  - rewrite Hsvg. cbn [negb].
    unfold findRootTag in Hfirst.
    rewrite TextFacts.find_is_head_of_filter in Hfirst.
    destruct (List.filter _ (map fst jsonObj)) as [|k0 ks]; [discriminate|].
    inversion Hfirst; subst. exact Hprops.
Qed.

(** X18.  When neither the svg key nor the first key other than the
    declaration holds a usable value (an svg element without attributes
    or children is an empty string), the handler answers with the error
    envelope for a missing root. *)
Theorem metadata_without_root_is_an_error (svg_code : string)
    (jsonObj : list (string * JsValue)) (w : World) :
  XMLParser_parse env "@_" svg_code = Returned jsonObj ->
  truthy (lookupProp "svg" jsonObj) = false ->
  (forall first, findRootTag (map fst jsonObj) = Some first ->
     truthy (lookupProp first jsonObj) = false) ->
  get_svg_metadata env svg_code w =
    (Returned (errorResponse
       "Error extracting metadata: Could not find SVG root element"), w).
Proof.
  intros Hparse Hsvg Hfirst.
  unfold findRootTag in Hfirst.
  rewrite TextFacts.find_is_head_of_filter in Hfirst.
  destruct (List.filter (fun k => negb (Js.str_eqb k "?xml")) (map fst jsonObj))
    as [|k0 ks] eqn:Hkeys.
  - rewrite (metadata_from svg_code jsonObj (lookupProp "svg" jsonObj) w Hparse).
    + rewrite Hsvg. reflexivity.
    + rewrite Hsvg, Hkeys. reflexivity.
  - rewrite (metadata_from svg_code jsonObj (lookupProp k0 jsonObj) w Hparse).
    + rewrite (Hfirst k0 eq_refl). reflexivity.
    + rewrite Hsvg, Hkeys. reflexivity.
Qed.

(** X19.  When the drawing and the stream both succeed, svg_to_pdf
    answers with the resolved path of a file named after the generated
    identifier, which then holds the document; the stream is opened
    before the drawing and ended after it. *)
Theorem pdf_written_under_generated_name (svg_code document : string)
    (w : World) :
  let filepath := pdfPath env (uuidv4 env w) in
  SVGtoPDF env svg_code = Returned document ->
  stream_finish env (files w) filepath = Returned tt ->
  fst (svg_to_pdf env svg_code w)
    = Returned (textResponse (Path.resolve (process_cwd env) [filepath]))
  /\ files (snd (svg_to_pdf env svg_code w)) !! filepath = Some document
  /\ calls (snd (svg_to_pdf env svg_code w))
     = calls w ++ [EvUuid; EvCreateWriteStream filepath;
                   EvSvgToPdf svg_code; EvStreamEnd filepath].
Proof.
  intros filepath Hdraw Hfinish.
  unfold svg_to_pdf, tryCatch, bind, ret, call, streamEnd.
  fold filepath. rewrite Hdraw. cbn [files record]. rewrite Hfinish.
  cbn [fst snd files calls store record].
  split; [reflexivity|]. split; [apply lookup_insert_eq|].
  rewrite <- !app_assoc. reflexivity.
Qed.


Lemma singleItem_text (text : string) (flag : bool) :
  singleItem {| content := [TextItem text]; isError := flag |}.
Proof. exists (TextItem text). split; [reflexivity|]. intros _. reflexivity. Qed.

Lemma tryCatch_single {A} (body : M A) (k : A -> string) (h : JsError -> string)
    (w : World) (r : Response) :
  fst (tryCatch (bind body (fun a => ret (textResponse (k a))))
         (fun e => ret (errorResponse (h e))) w) = Returned r ->
  singleItem r.
Proof.
  unfold tryCatch, bind, ret. destruct (body w) as [[a|e] w']; cbn [fst];
    intros Hr; inversion Hr; apply singleItem_text.
Qed.

(** X24.  Every envelope a handler returns holds exactly one content
    item, and an envelope that signals an error holds a text item: no
    handler mixes a payload with an error or returns an empty answer. *)
Theorem envelopes_hold_one_item (svg_code filename name : string)
    (width height : option Z) (shouldOptimize : bool) (w : World)
    (r : Response) :
  (fst (render_svg env svg_code width height w) = Returned r -> singleItem r)
  /\ (fst (save_svg env svg_code filename shouldOptimize w) = Returned r ->
      singleItem r)
  /\ (fst (optimize_svg env svg_code w) = Returned r -> singleItem r)
  /\ (fst (format_svg env svg_code w) = Returned r -> singleItem r)
  /\ (fst (svg_to_react env svg_code name w) = Returned r -> singleItem r)
  /\ (fst (svg_to_react_native env svg_code name w) = Returned r -> singleItem r)
  /\ (fst (svg_to_data_uri svg_code w) = Returned r -> singleItem r)
  /\ (fst (svg_to_pdf env svg_code w) = Returned r -> singleItem r)
  /\ (fst (validate_svg env svg_code w) = Returned r -> singleItem r)
  /\ (fst (get_svg_metadata env svg_code w) = Returned r -> singleItem r).
Proof.
  split.
  { unfold render_svg.
    destruct (valid (validateSvgContent env svg_code)); cbn [negb];
      [|discriminate].
    unfold tryCatch, bind, call, ret, throw.
    destruct (sharp_png env _ _) as [png|cause]; cbn [fst]; [|discriminate].
    intros Hr; inversion Hr.
    exists (ImageItem (Base64.encode png) "image/png").
    split; [reflexivity|discriminate]. }
  split.
  { unfold save_svg, tryCatch, bind, ret, mkdir_recursive, optimize,
      console_warn, call, writeFile.
    destruct shouldOptimize;
      [destruct (svgo_optimize env svg_code savePlugins)|];
      cbn [files record];
      (destruct (fs_mkdir env (files w) _) as [[]|?];
         [|cbn [fst]; intros Hr; inversion Hr; apply singleItem_text]);
      cbn [files record];
      (destruct (fs_writeFile env (files w) _ _) as [[]|?];
         cbn [fst]; intros Hr; inversion Hr; apply singleItem_text). }
  split; [apply (tryCatch_single (optimize env svg_code optimizePlugins) id)|].
  split; [apply (tryCatch_single (call (EvFormat svg_code) _) id)|].
  split; [apply (tryCatch_single (transform env svg_code TargetIcon name) id)|].
  split; [apply (tryCatch_single (transform env svg_code TargetNative name) id)|].
  split; [intros Hr; inversion Hr; apply singleItem_text|].
  split.
  { unfold svg_to_pdf, tryCatch, bind, ret, call, streamEnd.
    destruct (SVGtoPDF env svg_code);
      [|cbn [fst]; intros Hr; inversion Hr; apply singleItem_text].
    cbn [files record].
    destruct (stream_finish env (files w) _) as [[]|?];
      cbn [fst]; intros Hr; inversion Hr; apply singleItem_text. }
  split; [intros Hr; inversion Hr; apply singleItem_text|].
  unfold get_svg_metadata, tryCatch, bind.
  destruct (XMLParser_parse env "@_" svg_code) as [jsonObj|e];
    [|cbn [fst]; intros Hr; inversion Hr; apply singleItem_text].
  match goal with
  | |- context [if negb (truthy ?root) then throw _ else _] =>
      destruct (truthy root)
  end; cbn [fst]; intros Hr; inversion Hr; apply singleItem_text.
Qed.

End HandlerCoverage.

(** X20.  Two different sources without unpaired surrogates never get
    the same data URI. *)
Theorem data_uri_separates_well_formed_texts (a b : list Z) (w w' : World) :
  Utf16.wellFormed a = true -> Utf16.wellFormed b = true -> a <> b ->
  fst (OnText.svg_to_data_uri a w) <> fst (OnText.svg_to_data_uri b w').
Proof.
  intros Ha Hb Hdiff Heq. apply Hdiff.
  unfold OnText.svg_to_data_uri, tryCatch, ret, textResponse in Heq.
  cbn [fst] in Heq. inversion Heq as [Hpayload].
  change (Base64.encode (Utf16.Buffer_from a)
          = Base64.encode (Utf16.Buffer_from b)) in Hpayload.
  apply Utf16Facts.payload_determines_buffer in Hpayload.
  assert (Hsame : Some a = Some b).
  { rewrite <- (Utf16Facts.toString_Buffer_from a Ha),
            <- (Utf16Facts.toString_Buffer_from b Hb), Hpayload.
    reflexivity. }
  inversion Hsame. reflexivity.
Qed.

(** X21.  The payload of a data URI is four characters for every three
    bytes of the source, the last group being padded. *)
Theorem data_uri_payload_length (svg_code : string) (w : World) :
  exists payload,
    fst (svg_to_data_uri svg_code w)
      = Returned (textResponse ("data:image/svg+xml;base64," +:+ payload))
    /\ String.length payload = (4 * ((String.length svg_code + 2) / 3))%nat.
Proof.
  exists (Base64.encode (Base64.Buffer_from svg_code)). split; [reflexivity|].
  rewrite TextFacts.encode_length. unfold Base64.Buffer_from.
  rewrite TextFacts.length_list_byte_of_string. reflexivity.
Qed.

(** * The further properties at work on concrete documents *)

Section MoreRuns.

Import Examples Fixtures.

Ltac differs := let H := fresh in intros H; vm_compute in H; discriminate H.

Ltac absent :=
  match goal with
  | |- ?x ∉ ?tags => apply (bool_decide_eq_false_1 (x ∈ tags)); reflexivity
  end.

Lemma unknown_element_is_reported_witness :
  ObjectProperty "blob" (JObj nestedBlob)
  /\ In "Non-standard SVG tag found: 'blob'"
       (warnings (validateSvgContent (parsing nestedBlob) "<svg/>")).
Proof.
  assert (Hblob : ObjectProperty "blob" (JObj nestedBlob)).
  { eapply ObjectProperty_in_object; [left; reflexivity|].
    eapply ObjectProperty_in_object; [left; reflexivity|].
    eapply ObjectProperty_here; [left; reflexivity|reflexivity]. }
  split; [exact Hblob|].
  apply (unknown_element_is_reported (parsing nestedBlob) "<svg/>" "blob"
           nestedBlob eq_refl eq_refl Hblob).
  - differs.
  - absent.
  - reflexivity.
  - differs.
Defined.

Lemma warnings_name_unknown_tags_witness :
  In "Non-standard SVG tag found: 'customShape'"
     (warnings (validateSvgContent working "<svg><customShape id='a'/></svg>"))
  /\ exists tagName,
       "Non-standard SVG tag found: 'customShape'"
         = "Non-standard SVG tag found: '" +:+ tagName +:+ "'"
       /\ tagName <> "svg"
       /\ (tagName ∉ SVG_TAGS working).
Proof.
  assert (Hin : In "Non-standard SVG tag found: 'customShape'"
    (warnings (validateSvgContent working "<svg><customShape id='a'/></svg>")))
    by (left; reflexivity).
  split; [exact Hin|].
  exact (warnings_name_unknown_tags working _ _ Hin).
Defined.

Lemma primitive_children_raise_nothing_witness :
  XMLParser_parse (parsing flatSvg) EmptyString "<svg/>" = Returned flatSvg
  /\ validateSvgContent (parsing flatSvg) "<svg/>" =
       {| valid := true; errors := []; warnings := [] |}.
Proof.
  split; [reflexivity|].
  apply (primitive_children_raise_nothing (parsing flatSvg) "<svg/>" "svg"
           [("width", JNum 24); ("customShape", JStr EmptyString);
            ("title", JStr "Logo")] eq_refl eq_refl eq_refl).
  intros key v [Heq|[Heq|[Heq|[]]]]; inversion Heq; reflexivity.
Defined.

Lemma array_items_are_reported_by_index_witness :
  Reaches (JObj twoRects)
    (JArr [JObj [("x", JStr "1")]; JObj [("x", JStr "2")]])
  /\ In "Non-standard SVG tag found: '1'"
       (warnings (validateSvgContent (parsing twoRects) "<svg/>")).
Proof.
  assert (Hreach : Reaches (JObj twoRects)
    (JArr [JObj [("x", JStr "1")]; JObj [("x", JStr "2")]])).
  { eapply Reaches_property; [left; reflexivity|reflexivity|].
    eapply Reaches_property; [left; reflexivity|reflexivity|].
    apply Reaches_here. }
  split; [exact Hreach|].
  apply (array_items_are_reported_by_index (parsing twoRects) "<svg/>" twoRects
           _ 1 (JObj [("x", JStr "2")]) eq_refl eq_refl Hreach eq_refl eq_refl).
  absent.
Defined.

(** The prefix holds a euro sign, whose first byte also starts the line
    separators, and a colon of its own. *)
Lemma stripNamespace_qualified_witness :
  JsText.hasLineBreak (String "226" (String "130" (String "172" ":b"))) = false
  /\ Js.stripNamespace
       (String "226" (String "130" (String "172" ":b")) +:+ ":" +:+ "svg")
     = "svg".
Proof.
  split; [reflexivity|].
  apply (stripNamespace_qualified
           (String "226" (String "130" (String "172" ":b"))) "svg").
  - reflexivity.
  - intros c [<-|[<-|[<-|[]]]]; discriminate.
Defined.

Lemma save_leaves_other_files_witness :
  "/srv/app/other.svg" <> resolveInCwd working (withSvgExtension "icon")
  /\ files (snd (save_svg working "<svg/>" "icon" true emptyWorld))
       !! "/srv/app/other.svg"
     = files emptyWorld !! "/srv/app/other.svg".
Proof.
  assert (Hother : "/srv/app/other.svg"
                   <> resolveInCwd working (withSvgExtension "icon")) by differs.
  split; [exact Hother|].
  exact (save_leaves_other_files working "<svg/>" "icon" "/srv/app/other.svg"
           true emptyWorld Hother).
Defined.

Lemma save_success_means_file_written_witness :
  fst (save_svg (parsing []) "<svg/>" "icon" true emptyWorld)
    = Returned (textResponse "/srv/app/icon.svg")
  /\ files (snd (save_svg (parsing []) "<svg/>" "icon" true emptyWorld))
       !! "/srv/app/icon.svg" = Some "min:<svg/>".
Proof.
  split; [reflexivity|].
  destruct (save_success_means_file_written (parsing []) "<svg/>" "icon" true
              emptyWorld (textResponse "/srv/app/icon.svg") eq_refl eq_refl)
    as (_ & Hfile).
  exact Hfile.
Defined.

Lemma render_returns_decodable_png_witness :
  valid (validateSvgContent working "<svg/>") = true
  /\ exists data,
       fst (render_svg working "<svg/>" None None emptyWorld)
         = Returned {| content := [ImageItem data "image/png"];
                       isError := false |}
       /\ Base64.decode data = Some (Base64.Buffer_from "<svg/>").
Proof.
  split; [reflexivity|].
  destruct (render_returns_decodable_png working "<svg/>" None None
              (Base64.Buffer_from "<svg/>") emptyWorld eq_refl eq_refl)
    as (data & Hresult & Hdecode & _).
  exists data. split; [exact Hresult|exact Hdecode].
Defined.

Lemma render_resizes_only_for_nonzero_size_witness :
  valid (validateSvgContent working "<svg/>") = true
  /\ calls (snd (render_svg working "<svg/>" (Some 0) None emptyWorld))
     = calls emptyWorld ++ [EvRasterize (Base64.Buffer_from "<svg/>") None].
Proof.
  split; [reflexivity|].
  destruct (render_resizes_only_for_nonzero_size working "<svg/>" (Some 0) None
              emptyWorld eq_refl) as (Hnone & _).
  apply Hnone; [right; reflexivity|left; reflexivity].
Defined.

Lemma metadata_read_from_svg_root_witness :
  XMLParser_parse (parsing sizedSvg) "@_" "<svg/>" = Returned sizedSvg
  /\ get_svg_metadata (parsing sizedSvg) "<svg/>" emptyWorld =
       (Returned (textResponse (JSON_stringify_metadata (parsing sizedSvg)
          {| md_width := Some (JNum 24); md_height := Some (JNum 24);
             md_viewBox := None; md_title := Some (JStr "Logo") |})),
        emptyWorld).
Proof.
  split; [reflexivity|].
  exact (metadata_read_from_svg_root (parsing sizedSvg) "<svg/>" sizedSvg
           [("@_width", JNum 24); ("@_height", JNum 24); ("title", JStr "Logo")]
           emptyWorld eq_refl eq_refl).
Defined.

Lemma metadata_falls_back_to_first_element_witness :
  findRootTag (map fst lonelyGroup) = Some "g"
  /\ get_svg_metadata (parsing lonelyGroup) "<g/>" emptyWorld =
       (Returned (textResponse (JSON_stringify_metadata (parsing lonelyGroup)
          {| md_width := Some (JNum 10); md_height := None;
             md_viewBox := None; md_title := None |})),
        emptyWorld).
Proof.
  split; [reflexivity|].
  exact (metadata_falls_back_to_first_element (parsing lonelyGroup) "<g/>" "g"
           lonelyGroup [("@_width", JNum 10)] emptyWorld
           eq_refl eq_refl eq_refl eq_refl).
Defined.

Lemma metadata_without_root_is_an_error_witness :
  XMLParser_parse working "@_" "<svg/>" = Returned [("svg", JStr EmptyString)]
  /\ get_svg_metadata working "<svg/>" emptyWorld =
       (Returned (errorResponse
          "Error extracting metadata: Could not find SVG root element"),
        emptyWorld).
Proof.
  split; [reflexivity|].
  apply (metadata_without_root_is_an_error working "<svg/>"
           [("svg", JStr EmptyString)] emptyWorld eq_refl eq_refl).
  intros first Hfirst. inversion Hfirst. reflexivity.
Defined.

Lemma pdf_written_under_generated_name_witness :
  SVGtoPDF working "<svg/>" = Returned "<svg/>"
  /\ fst (svg_to_pdf working "<svg/>" emptyWorld)
     = Returned (textResponse
         "/srv/app/output/00000000-0000-4000-8000-000000000000.pdf")
  /\ files (snd (svg_to_pdf working "<svg/>" emptyWorld))
       !! "/srv/app/output/00000000-0000-4000-8000-000000000000.pdf"
     = Some "<svg/>".
Proof.
  split; [reflexivity|].
  destruct (pdf_written_under_generated_name working "<svg/>" "<svg/>"
              emptyWorld eq_refl eq_refl) as (Hresult & Hfile & _).
  split; [exact Hresult|exact Hfile].
Defined.

Lemma data_uri_separates_well_formed_texts_witness :
  Utf16.wellFormed (Utf16.ofAscii "<svg/>") = true
  /\ Utf16.wellFormed (Utf16.ofAscii "<g/>") = true
  /\ fst (OnText.svg_to_data_uri (Utf16.ofAscii "<svg/>") emptyWorld)
     <> fst (OnText.svg_to_data_uri (Utf16.ofAscii "<g/>") emptyWorld).
Proof.
  split; [reflexivity|]. split; [reflexivity|].
  apply (data_uri_separates_well_formed_texts
           (Utf16.ofAscii "<svg/>") (Utf16.ofAscii "<g/>")
           emptyWorld emptyWorld eq_refl eq_refl).
  differs.
Defined.

Lemma envelopes_hold_one_item_witness :
  fst (optimize_svg failing "<svg/>" emptyWorld)
    = Returned (errorResponse "Error optimizing SVG: boom")
  /\ singleItem (errorResponse "Error optimizing SVG: boom").
Proof.
  split; [reflexivity|].
  destruct (envelopes_hold_one_item failing "<svg/>" "icon" "Logo" None None
              false emptyWorld (errorResponse "Error optimizing SVG: boom"))
    as (_ & _ & Hoptimize & _).
  exact (Hoptimize eq_refl).
Defined.

End MoreRuns.
